(** * catalog.data.gov scrapper: ingestion and type inference of [main.py]

    A shallow embedding of the format readers, the column type
    inference, the CSV export and the zip orchestration of [src/main.py],
    with the properties the specification states about them.

    Conventions of the model:
    - a Python [str] is a [string] whose characters are code points below
      256, one [ascii] per code point;
    - a Python [dict] with string keys is a [gmap string _];
    - a call that can raise returns a [PyResult]; a function that prints
      or writes returns the list of its [Event]s;
    - the functions of libraries ([dateparser.parse], [ast.literal_eval],
      [json.loads], the pandas parsers, ...) are the variables of the
      section [Program]; what is known of a library function beyond its
      type is written in the definition that uses it. *)

From Stdlib Require Import ZArith Ascii DecimalString.
From stdpp Require Import gmap strings list fin_maps.

#[local] Set Warnings "-clear-no-such-hyp,-register-all".
#[local] Set Default Proof Using "Type".

(** ** Python strings *)

Module PyStr.

(** [str.isspace] on the code points below 256: TAB..CR, FS..US, SPACE,
    NEL (0x85) and NBSP (0xa0). *)
Definition is_space (c : ascii) : bool :=
  let n := nat_of_ascii c in
  ((9 <=? n) && (n <=? 13)) || ((28 <=? n) && (n <=? 32))
  || (n =? 133) || (n =? 160).

Fixpoint lstrip (s : string) : string :=
  match s with
  | EmptyString => EmptyString
  | String c s' => if is_space c then lstrip s' else s
  end.

Fixpoint rstrip (s : string) : string :=
  match s with
  | EmptyString => EmptyString
  | String c s' =>
      match rstrip s' with
      | EmptyString => if is_space c then EmptyString else String c EmptyString
      | r => String c r
      end
  end.

(** [s.strip()] *)
Definition strip (s : string) : string := rstrip (lstrip s).

(** [c in s] for a one-character [c] *)
Fixpoint contains (c : ascii) (s : string) : bool :=
  match s with
  | EmptyString => false
  | String d s' => Ascii.eqb c d || contains c s'
  end.

(** [len(s)] *)
Definition len (s : string) : nat := String.length s.

(** [s.split(sep)] for a one-character [sep] *)
Fixpoint split (sep : ascii) (s : string) : list string :=
  match s with
  | EmptyString => [EmptyString]
  | String c s' =>
      if Ascii.eqb c sep then EmptyString :: split sep s'
      else match split sep s' with
           | p :: ps => String c p :: ps
           | [] => [String c EmptyString]
           end
  end.

(** [sep.join(l)] *)
Fixpoint join (sep : string) (l : list string) : string :=
  match l with
  | [] => EmptyString
  | [p] => p
  | p :: l' => p +:+ sep +:+ join sep l'
  end.

(** [s.rpartition(sep)]: the text before the last [sep], [sep], and the
    text after it; two empty strings and [s] when [sep] does not occur. *)
Definition rpartition (sep : ascii) (s : string) : string * string * string :=
  let pieces := split sep s in
  let sep_str := String sep EmptyString in
  match pieces with
  | [] | [_] => (EmptyString, EmptyString, s)
  | _ => (join sep_str (removelast pieces), sep_str, List.last pieces EmptyString)
  end.

Definition startswith (c : ascii) (s : string) : bool :=
  match s with
  | String d _ => Ascii.eqb c d
  | EmptyString => false
  end.

Fixpoint endswith (c : ascii) (s : string) : bool :=
  match s with
  | EmptyString => false
  | String d EmptyString => Ascii.eqb c d
  | String _ s' => endswith c s'
  end.

(** [str(z)] for an [int] *)
Definition of_Z (z : Z) : string := NilZero.string_of_int (Z.to_int z).

Definition tab : string := String "009" EmptyString.

End PyStr.

(** ** Paths *)

(** [os.path.join] *)
Definition path_join (parts : list string) : string :=
  match parts with
  | [] => ""
  | a :: p =>
      foldl (λ path b,
               if PyStr.startswith "/" b then b
               else if bool_decide (path = "") || PyStr.endswith "/" path
                    then path +:+ b
                    else path +:+ "/" +:+ b)
            a p
  end.

(** [os.path.basename] *)
Definition basename (filename : string) : string :=
  List.last (PyStr.split "/" filename) "".

(** [base.split('.')[:1] + base.split('.')[-1:]], unpacked into two names. *)
Definition filename_and_ext (filename : string) : string * string :=
  let base := basename filename in
  (hd "" (PyStr.split "." base), List.last (PyStr.split "." base) "").

(** ** Exceptions and results *)

(** The exceptions of the model, all subclasses of [Exception]. *)
Inductive Exn :=
| KeyError | TypeError | ValueError | IndexError | FileNotFoundError
| LibraryError (name : string).

Inductive PyResult (A : Type) :=
| Ok (a : A)
| Raise (e : Exn).
Arguments Ok {A} a.
Arguments Raise {A} e.

#[global] Instance PyResult_ret : MRet PyResult := λ A a, Ok a.
#[global] Instance PyResult_bind : MBind PyResult := λ A B f m,
  match m with Ok a => f a | Raise e => Raise e end.

(** [try: body  except Exception as e: handler] *)
Definition try_except {A} (body : PyResult A) (handler : Exn → PyResult A)
  : PyResult A :=
  match body with
  | Ok a => Ok a
  | Raise e => handler e
  end.

(** ** Tables *)

(** The values a cell of a DataFrame holds. A float is carried by the text
    [str] prints for it; numpy's missing value is the float [nan]. *)
Inductive Cell :=
| CNone
| CBool (b : bool)
| CInt (z : Z)
| CFloat (text : string)
| CStr (s : string).

Definition NaN : Cell := CFloat "nan".

(** [str(value)] *)
Definition py_str (value : Cell) : string :=
  match value with
  | CNone => "None"
  | CBool true => "True"
  | CBool false => "False"
  | CInt z => PyStr.of_Z z
  | CFloat text => text
  | CStr s => s
  end.

(** A pandas DataFrame: the length of its index and its columns in order,
    each a label with its values. *)
Record DataFrame := mkDataFrame {
  index_len : nat;
  series : list (string * list Cell)
}.

(** The iteration [for column in dataframe] yields the labels. *)
Definition columns (df : DataFrame) : list string := (series df).*1.

(** [dataframe[column]] for a label held by one column; [None] stands for
    the [KeyError] of an absent label. *)
Fixpoint getitem (ss : list (string * list Cell)) (column : string)
  : option (list Cell) :=
  match ss with
  | [] => None
  | (c, vs) :: ss' => if decide (c = column) then Some vs else getitem ss' column
  end.

Definition df_getitem (df : DataFrame) (column : string) : option (list Cell) :=
  getitem (series df) column.

(** [dataframe[:n]] *)
Definition df_head (n : nat) (df : DataFrame) : DataFrame :=
  {| index_len := min n (index_len df);
     series := (λ s, (s.1, take n s.2)) <$> series df |}.

(** A variable holds a reference to a DataFrame object of the heap; the
    slice [dataframe[:n]] is a new frame object. *)
Definition slice_object (n : nat) (ref : nat) (heap : list DataFrame)
  : option (nat * list DataFrame) :=
  df ← heap !! ref;
  Some (length heap, heap ++ [df_head n df]).

(** ** JSON values and XML elements *)

(** What [json.loads] returns; an object is the list of the items of the
    decoded dict, a float is carried by its text. *)
Inductive Json :=
| JNull
| JBool (b : bool)
| JInt (z : Z)
| JFloat (text : string)
| JStr (s : string)
| JArr (items : list Json)
| JObj (fields : list (string * Json)).

Fixpoint dict_get (fields : list (string * Json)) (key : string) : option Json :=
  match fields with
  | [] => None
  | (k, v) :: fields' => if decide (k = key) then Some v else dict_get fields' key
  end.

(** [v[key]] for a string [key] *)
Definition py_getitem (v : Json) (key : string) : PyResult Json :=
  match v with
  | JObj fields =>
      match dict_get fields key with
      | Some x => Ok x
      | None => Raise KeyError
      end
  | _ => Raise TypeError
  end.

Fixpoint chars (s : string) : list string :=
  match s with
  | EmptyString => []
  | String c s' => String c EmptyString :: chars s'
  end.

(** The values an iteration over [v] yields. *)
Definition py_iter (v : Json) : PyResult (list Json) :=
  match v with
  | JArr items => Ok items
  | JObj fields => Ok (JStr <$> fields.*1)
  | JStr s => Ok (JStr <$> chars s)
  | _ => Raise TypeError
  end.

Definition is_scalar (v : Json) : bool :=
  match v with
  | JArr _ | JObj _ => false
  | _ => true
  end.

(** An element of an XML tree. *)
Inductive Element :=
| Elem (tag : string) (text : option string) (children : list Element).

Definition tag (e : Element) : string := let 'Elem t _ _ := e in t.
Definition text (e : Element) : option string := let 'Elem _ t _ := e in t.
Definition getchildren (e : Element) : list Element := let 'Elem _ _ c := e in c.

Definition text_cell (t : option string) : Cell :=
  match t with Some s => CStr s | None => CNone end.

(** The shape the specification expects of a hierarchical-JSON document:
    [{ data: [[...], ...], meta: { view: { columns: [{name: ...}, ...] } } }].
    [key_path] follows keys through nested objects. *)
Definition child (v : Json) (key : string) : option Json :=
  match v with
  | JObj fields => dict_get fields key
  | _ => None
  end.

Definition key_path (path : list string) (doc : Json) : option Json :=
  foldl (λ found key, v ← found; child v key) (Some doc) path.



(** ** Guesses and SQL types *)

(** The types [ast.literal_eval] can return, and their [__name__]. *)
Inductive PyLitType :=
| TInt | TFloat | TComplex | TStr | TBytes | TBool | TNoneType
| TTuple | TList | TDict | TSet | TEllipsis.

Definition type_name (t : PyLitType) : string :=
  match t with
  | TInt => "int" | TFloat => "float" | TComplex => "complex"
  | TStr => "str" | TBytes => "bytes" | TBool => "bool"
  | TNoneType => "NoneType" | TTuple => "tuple" | TList => "list"
  | TDict => "dict" | TSet => "set" | TEllipsis => "ellipsis"
  end.

(** [Series.drop_duplicates()]: the first occurrence of each value, in order. *)
Fixpoint drop_duplicates {A} `{EqDecision A} (l : list A) : list A :=
  match l with
  | [] => []
  | x :: l' => x :: filter (λ y, y ≠ x) (drop_duplicates l')
  end.

(** A guess is a type name, or [None] for a missing value. *)
Definition choose_type_priority (types : list (option string)) : string :=
  if decide (Some "str" ∈ types) then "VARCHAR(100)"
  else if decide (Some "float" ∈ types) then "DECIMAL(17,4)"
  else if decide (Some "int" ∈ types) then "INT"
  else if decide (Some "date" ∈ types) then "DATETIME"
  else "VARCHAR(100)".

Definition sql_types : list string :=
  ["VARCHAR(100)"; "DECIMAL(17,4)"; "INT"; "DATETIME"].

(** The condition on the shape of the text in the [elif] of
    [guess_str_type]. *)
Definition date_shaped (_str : string) : bool :=
  existsb (λ x, PyStr.contains x _str) ["-"%char; "/"%char]
  && (7 <? PyStr.len _str) && (PyStr.len _str <? 11).

(** ** CSV records and events *)

(** The text [to_csv] writes for a value: nothing for a missing one. *)
Definition csv_text (value : Cell) : string :=
  match value with
  | CNone => ""
  | CFloat text => if String.eqb text "nan" then "" else text
  | _ => py_str value
  end.

(** Row [i] of a frame, as texts. *)
Definition csv_row (df : DataFrame) (i : nat) : list string :=
  (λ s, csv_text (nth i s.2 NaN)) <$> series df.

(** [dataframe.to_csv(path, index=index, header=header)], as the records
    handed to the CSV writer: the header, then one record per row; with
    [index] each record starts with the row label. *)
Definition to_csv (df : DataFrame) (index header : bool) : list (list string) :=
  (if header then [(if index then [""] else []) ++ columns df] else [])
  ++ ((λ i, (if index then [PyStr.of_Z (Z.of_nat i)] else []) ++ csv_row df i)
      <$> seq 0 (index_len df)).

(** What the program does to the outside: a line printed, a CSV file or a
    text file written, a folder created, a member of an archive extracted
    to a folder. *)
Inductive Event :=
| Stdout (line : string)
| CsvFile (path encoding : string) (records : list (list string))
| TextFile (path content : string)
| Mkdir (path : string)
| Unzip (member path : string).

(** A run: the events performed, and whether it ended or raised. *)
Definition then_ (r1 r2 : list Event * PyResult ()) : list Event * PyResult () :=
  match r1 with
  | (events, Ok _) => (events ++ r2.1, r2.2)
  | (events, Raise e) => (events, Raise e)
  end.

Fixpoint for_each {A} (body : A → list Event * PyResult ()) (l : list A)
  : list Event * PyResult () :=
  match l with
  | [] => ([], Ok ())
  | x :: l' => then_ (body x) (for_each body l')
  end.

Definition ALLOWED_EXTS : list string := ["xls"; "xlsx"; "json"; "xml"; "rdf"].

(** A frame of one column. *)
Definition one_column (name : string) (values : list Cell) : DataFrame :=
  mkDataFrame (length values) [(name, values)].

(** ** Library functions for the examples *)

(** Stand-ins for library functions, fixed on the few inputs the examples
    use. *)
Module Sample.

(** Both texts are dates for the parser; the second one is short. *)
Definition dateparse (s : string) : bool :=
  bool_decide (s ∈ ["2020-01-01"; "1/1/20"]).

(** ["1"] and ["2"] are [int] literals, ["2.5"] is a [float] literal,
    ["True"] is a [bool]; the other texts of the examples are no
    literals. *)
Definition literal_eval (s : string) : option PyLitType :=
  if bool_decide (s ∈ ["1"; "2"]) then Some TInt
  else if String.eqb s "2.5" then Some TFloat
  else if String.eqb s "True" then Some TBool
  else None.

(** One dtype for all: values are stored as they are read. *)
Definition dtype_coerce (column : list Json) (v : Json) : Cell :=
  match v with
  | JNull => CNone
  | JBool b => CBool b
  | JInt z => CInt z
  | JFloat t => CFloat t
  | JStr s => CStr s
  | _ => CNone
  end.

(** A library call that raises. *)
Definition fails {A B} (name : string) : A → PyResult B :=
  λ _, Raise (LibraryError name).

Definition fails2 {A B C} (name : string) : A → B → PyResult C :=
  λ _ _, Raise (LibraryError name).

Definition get_schema (df : DataFrame) (table_name : string)
    (dtype : gmap string string) : string :=
  "CREATE TABLE " +:+ table_name.

(** A Socrata export with the columns [city] and [zip] and two rows. *)
Definition rows_json : Json :=
  JObj [("meta", JObj [("view", JObj [("columns",
           JArr [JObj [("id", JInt 1); ("name", JStr "city")];
                 JObj [("id", JInt 2); ("name", JStr "zip")]])])]);
        ("data", JArr [JArr [JStr "Ames"; JStr "50010"];
                       JArr [JStr "Boone"; JNull]])].

(** The same columns, and [null] for the data. *)
Definition null_data_json : Json :=
  JObj [("meta", JObj [("view", JObj [("columns",
           JArr [JObj [("name", JStr "city")];
                 JObj [("name", JStr "zip")]])])]);
        ("data", JNull)].

End Sample.

(** ** Names, downloads and the steps of a batch *)

(** [s.replace(c, '')] for a one-character [c] *)
Fixpoint remove_char (c : ascii) (s : string) : string :=
  match s with
  | EmptyString => EmptyString
  | String d s' =>
      if Ascii.eqb d c then remove_char c s' else String d (remove_char c s')
  end.

(** [s.startswith(p)] and [p in s] for a string [p] *)
Fixpoint has_prefix (p s : string) : bool :=
  match p, s with
  | EmptyString, _ => true
  | String c p', String d s' => Ascii.eqb c d && has_prefix p' s'
  | String _ _, EmptyString => false
  end.

Fixpoint occurs_in (p s : string) : bool :=
  match s with
  | EmptyString => has_prefix p EmptyString
  | String _ s' => has_prefix p s || occurs_in p s'
  end.

(** The characters of the raw string [to_replace] of [sanity_name]:
    backslash, slash, colon, question mark, star, bar and double quote. *)
Definition to_replace : list ascii :=
  ["\"; "/"; ":"; "?"; "*"; "|"; "034"]%char.

Definition sanity_name (filename : string) : string :=
  foldl (λ filename chr_, remove_char chr_ filename) filename to_replace.

(** What [requests.get] returns, as far as [download_file] looks at it: the
    header [Content-Type], if there is one, and the content. *)
Record Response := mkResponse {
  content_type : option string;
  content : string
}.

(** A step of a batch: an event of the conversion, or a downloaded file
    saved. *)
Inductive Step :=
| Core (e : Event)
| Saved (path body : string).

Definition core (r : list Event * PyResult ()) : list Step * PyResult () :=
  (Core <$> r.1, r.2).

Definition and_then (r1 r2 : list Step * PyResult ()) : list Step * PyResult () :=
  match r1 with
  | (steps, Ok _) => (steps ++ r2.1, r2.2)
  | (steps, Raise e) => (steps, Raise e)
  end.

Fixpoint for_files {A} (body : A → list Step * PyResult ()) (l : list A)
  : list Step * PyResult () :=
  match l with
  | [] => ([], Ok ())
  | x :: l' => and_then (body x) (for_files body l')
  end.


(** The path a [Saved] step writes. *)
Definition saved_path (s : Step) : option string :=
  match s with
  | Saved path _ => Some path
  | Core _ => None
  end.

(** Inputs for the examples of the batch. *)
Module Fixture.


(** Every url is answered with JSON, but the url of the page with HTML. *)
Definition answer (url : string) : PyResult Response :=
  if String.eqb url "http://host/page"
  then Ok (mkResponse (Some "text/html; charset=utf-8") "<html>")
  else Ok (mkResponse (Some "application/json") "{}").


Definition listing_csv (url : string) (filename : option string)
  : PyResult (string * list (string * string)) :=
  Ok ("Crime: 2020",
      [("rows.json", "http://host/rows"); ("towns.v2.csv", "http://host/towns");
       ("more.json", "http://host/more")]).

(** [Sample.rows_json] with one more key. *)
Definition rows_json_extra : Json :=
  match Sample.rows_json with
  | JObj fields => JObj (("license", JStr "public") :: fields)
  | other => other
  end.

Definition decode (text : string) : PyResult Json :=
  if String.eqb text "extra" then Ok rows_json_extra else Ok Sample.rows_json.


End Fixture.

(** ** The program *)

Section Program.

(** [dateparser.parse(s) is not None] *)
Variable dateparse : string → bool.
(** [type(ast.literal_eval(s))], [None] when [literal_eval] raises. *)
Variable literal_eval : string → option PyLitType.
(** [open(filename).read()] *)
Variable open_read : string → PyResult string.
(** [json.loads] *)
Variable json_decode : string → PyResult Json.
(** How pandas stores a value of a column, given all the values of the
    column (it picks one dtype per column). *)
Variable dtype_coerce : list Json → Json → Cell.
(** [pandas.DataFrame(data, columns=names)] outside the cases written
    out in [pandas_DataFrame]. *)
Variable pandas_DataFrame_other : Json → list Json → PyResult DataFrame.
(** [ElementTree.parse(filename).getroot()] *)
Variable et_parse : string → PyResult Element.
(** [dataframe.append(pandas.Series(row, index=df_cols), ignore_index=True)] *)
Variable frame_append : DataFrame → list (string * Cell) → PyResult DataFrame.
(** [Graph().parse(filename)]: the statements of the graph. *)
Variable rdf_parse : string → PyResult (list (string * string * string)).
(** [pandas.DataFrame(r)] for a graph [r] *)
Variable pandas_DataFrame_graph :
  list (string * string * string) → PyResult DataFrame.
(** [pandas.read_excel] and [pandas.read_csv] *)
Variable pandas_read_excel : string → PyResult DataFrame.
Variable pandas_read_csv : string → PyResult DataFrame.
(** [pandas.io.sql.get_schema(dataframe, table_name, dtype=df_columns)] *)
Variable get_schema : DataFrame → string → gmap string string → string.
(** [ZipFile(path).namelist()] *)
Variable zip_namelist : string → PyResult (list string).
(** [os.path.exists] *)
Variable path_exists : string → bool.

(** *** Format readers *)

Definition as_label (name : Json) : option string :=
  match name with JStr s => Some s | _ => None end.

Definition as_row (width : nat) (row : Json) : option (list Json) :=
  match row with
  | JArr cells =>
      if forallb is_scalar cells && (length cells =? width)
      then Some cells else None
  | _ => None
  end.

(** Column [j] of a list of rows. *)
Definition positional (rows : list (list Json)) (j : nat) : list Json :=
  (λ row, nth j row JNull) <$> rows.

(** [pandas.DataFrame(data, columns=column_names)] for string labels and
    - [data] is [None]: the empty frame with these columns;
    - [data] is a list of rows of scalars, each as long as the labels (at
      least one label, or no row): column [j] holds the values at
      position [j] of the rows. *)
Definition pandas_DataFrame (data : Json) (column_names : list Json)
  : PyResult DataFrame :=
  match mapM as_label column_names, data with
  | Some labels, JNull => Ok (mkDataFrame 0 ((λ c, (c, [])) <$> labels))
  | Some labels, JArr items =>
      match mapM (as_row (length labels)) items with
      | Some rows =>
          if bool_decide (rows = [] ∨ labels ≠ [])
          then Ok (mkDataFrame (length rows)
                     (imap (λ j c,
                              (c, dtype_coerce (positional rows j)
                                    <$> positional rows j))
                           labels))
          else pandas_DataFrame_other data column_names
      | None => pandas_DataFrame_other data column_names
      end
  | _, _ => pandas_DataFrame_other data column_names
  end.

Definition dataframe_from_json (filename : string) : PyResult (option DataFrame) :=
  try_except
    (text ← open_read filename;
     json ← json_decode text;
     rows ← py_getitem json "data";
     meta ← py_getitem json "meta";
     view ← py_getitem meta "view";
     columns ← py_getitem view "columns";
     items ← py_iter columns;
     column_names ← mapM (λ c, py_getitem c "name") items;
     dataframe ← pandas_DataFrame rows column_names;
     mret (Some dataframe))
    (λ e, mret None).

Definition dataframe_from_xml (filename : string) : PyResult (option DataFrame) :=
  try_except
    (root ← et_parse filename;
     xroot ← match getchildren root with
             | first :: _ => Ok first
             | [] => Raise IndexError
             end;
     dataframe ← foldl (λ acc node,
                          dataframe ← acc;
                          let row := (λ elem, text_cell (text elem))
                                       <$> getchildren node in
                          let df_cols := tag <$> getchildren node in
                          frame_append dataframe (zip df_cols row))
                       (Ok (mkDataFrame 0 [])) (getchildren xroot);
     mret (Some dataframe))
    (λ e, mret None).

Definition dataframe_from_rfd (filename : string) : PyResult (option DataFrame) :=
  try_except
    (r ← rdf_parse filename;
     dataframe ← pandas_DataFrame_graph r;
     mret (Some dataframe))
    (λ e, mret None).

Definition read_file (filename : string) : PyResult (option DataFrame) :=
  let file_type := (PyStr.rpartition "." filename).2 in
  if decide (file_type ∈ ["xlsx"; "xls"]) then
    dataframe ← pandas_read_excel filename; mret (Some dataframe)
  else if decide (file_type = "csv") then
    dataframe ← pandas_read_csv filename; mret (Some dataframe)
  else if decide (file_type = "xml") then dataframe_from_xml filename
  else if decide (file_type = "json") then dataframe_from_json filename
  else if decide (file_type = "rdf") then dataframe_from_rfd filename
  else mret None.

(** *** CSV export *)

Definition export_csv (dataframe : DataFrame) (output_name : string) : list Event :=
  [CsvFile (output_name +:+ ".csv") "utf-8" (to_csv dataframe false true)].

(** *** Type inference *)

(** The guess for one value: [None] for a missing one, else a type name. *)
Definition guess_str_type (value : Cell) : option string :=
  let _str := PyStr.strip (py_str value) in
  if String.eqb _str "nan" then None
  else if date_shaped _str && dateparse _str then Some "date"
  else match literal_eval _str with
       | Some t => Some (type_name t)
       | None => Some "str"
       end.

(** The guesses of one column of [df_partial], without duplicates. *)
Definition column_types (df_partial : DataFrame) (column : string)
  : list (option string) :=
  drop_duplicates (guess_str_type <$> default [] (df_getitem df_partial column)).

(** The loop [for column in df_partial] filling the dict [_types]. *)
Definition types_loop (df_partial : DataFrame) : gmap string string :=
  foldl (λ _types column,
           <[column := choose_type_priority (column_types df_partial column)]> _types)
        ∅ (columns df_partial).

Definition identify_colummns_types (dataframe : DataFrame) : gmap string string :=
  let df_partial := df_head 100 dataframe in
  types_loop df_partial.

(** [identify_colummns_types] called with a reference to a frame object:
    the dict it returns and the heap it leaves. *)
Definition identify_colummns_types_call (dataframe : nat) (heap : list DataFrame)
  : option (gmap string string * list DataFrame) :=
  '(df_partial, heap') ← slice_object 100 dataframe heap;
  partial ← heap' !! df_partial;
  Some (types_loop partial, heap').

(** *** SQL and orchestration *)

Definition generate_sql (dataframe : DataFrame) (table_name : string) : string :=
  let df_columns := identify_colummns_types dataframe in
  get_schema dataframe table_name df_columns.

Definition write_sql (dataframe : DataFrame) (filename : string) : list Event :=
  let b_name := basename filename in
  let sql := generate_sql dataframe b_name in
  [TextFile (filename +:+ ".sql") sql].

Definition log_unssuported (title filename : string) : list Event :=
  [Stdout (PyStr.tab +:+ " # Bad File")].

Definition process_file (title filename : string) : list Event * PyResult () :=
  let '(b_name, b_ext) := filename_and_ext filename in
  let csv_dest := path_join [title; "csv"] in
  let sql_dest := path_join [title; "sql"] in
  let dwn_dest := path_join [title; "download"] in
  match read_file (path_join [dwn_dest; filename]) with
  | Raise e => ([], Raise e)
  | Ok (Some df) =>
      ([Stdout (PyStr.tab +:+ "Exporting to csv")]
       ++ export_csv df (path_join [csv_dest; b_name])
       ++ [Stdout (PyStr.tab +:+ "Exporting to sql")]
       ++ write_sql df (path_join [sql_dest; b_name]), Ok ())
  | Ok None => (log_unssuported title filename, Ok ())
  end.

Definition process_zip (title filename : string) : list Event * PyResult () :=
  let dwn_dest := path_join [title; "download"] in
  match zip_namelist (path_join [dwn_dest; filename]) with
  | Raise e => ([], Raise e)
  | Ok namelist =>
      let '(z_name, z_ext) := filename_and_ext filename in
      then_
        (if path_exists (path_join [dwn_dest; z_name]) then []
         else [Mkdir (path_join [dwn_dest; z_name])], Ok ())
        (for_each
           (λ f_name,
              let '(b_name, b_ext) := filename_and_ext f_name in
              if decide (b_ext ∈ ALLOWED_EXTS) then
                then_ ([Unzip f_name (path_join [dwn_dest; z_name])], Ok ())
                      (process_file title (path_join [dwn_dest; z_name; f_name]))
              else ([], Ok ()))
           namelist)
  end.

(** *** Download and batch *)

(** [requests.get(url, stream=True)] *)
Variable requests_get : string → PyResult Response.
(** [retreive_download_url(url, filename)]: the title of the page and the
    names and urls of its files. *)
Variable retreive_download_url :
  string → option string → PyResult (string * list (string * string)).

(** [download_file]: the chunks of the response are the [content] of the
    model, written as one body; opening the file for writing is taken to
    succeed, as for the csv and sql outputs. *)
Definition download_file (destine filename url : string)
  : list Step * PyResult bool :=
  match requests_get url with
  | Raise e => ([], Raise e)
  | Ok response =>
      let f_path := path_join [destine; filename] in
      if occurs_in "text/html" (default "text/html" (content_type response))
      then ([], Ok false)
      else ([Saved f_path (content response)], Ok true)
  end.

(** [os.path.exists] is asked once, for the root folder. *)
Definition create_folder_structure (root_folder_name : string) : list Event :=
  if path_exists root_folder_name then []
  else [Mkdir root_folder_name;
        Mkdir (path_join [root_folder_name; "download"]);
        Mkdir (path_join [root_folder_name; "csv"]);
        Mkdir (path_join [root_folder_name; "sql"])].

(** The body of the loop of [main] for one entry of [urls]. *)
Definition main_file (title dwn_dest : string) (file_info : string * string)
  : list Step * PyResult () :=
  let f_name := sanity_name file_info.1 in
  let '(b_name, b_ext) := filename_and_ext f_name in
  let f_name := PyStr.join "." [b_name; b_ext] in
  let url := file_info.2 in
  and_then
    ([Core (Stdout (String "010" "Processing " +:+ String "034" f_name
                    +:+ String "034" ""));
      Core (Stdout (PyStr.tab +:+ "Downloading"))], Ok ())
    (match download_file dwn_dest f_name url with
     | (steps, Raise e) => (steps, Raise e)
     | (steps, Ok success) =>
         and_then (steps, Ok ())
           (if success then
              if decide (b_ext = "zip") then core (process_zip title f_name)
              else core (process_file title f_name)
            else core (log_unssuported title f_name, Ok ()))
     end).

(** [main] for the arguments [url] and [filename] of the command line. *)
Definition main (url : string) (filename : option string)
  : list Step * PyResult () :=
  match retreive_download_url url filename with
  | Raise e => ([], Raise e)
  | Ok (title, urls) =>
      let title := sanity_name title in
      and_then (Core <$> create_folder_structure title, Ok ())
        (let dwn_dest := path_join [title; "download"] in
         for_files (main_file title dwn_dest) urls)
  end.

(** ** Lemmas on lists and dicts *)

(** Forget the variables the goal does not speak of, so that a decision
    procedure does not take the library functions for hypotheses. *)
Ltac forget_unused :=
  repeat match goal with
         | x : ?T |- _ =>
             lazymatch type of T with
             | Prop => fail
             | _ => clear x
             end
         end.
Ltac prop_solver := forget_unused; tauto.
Ltac sets_solver := forget_unused; set_solver.

Lemma elem_of_drop_duplicates {A} `{EqDecision A} (l : list A) (x : A) :
  x ∈ drop_duplicates l ↔ x ∈ l.
Proof.
  induction l as [|y l IH]; simpl; [done|].
  rewrite !elem_of_cons, list_elem_of_filter, IH.
  destruct (decide (x = y)); prop_solver.
Qed.

Lemma NoDup_drop_duplicates {A} `{EqDecision A} (l : list A) :
  NoDup (drop_duplicates l).
Proof.
  induction l as [|y l IH]; simpl; constructor.
  - rewrite list_elem_of_filter. prop_solver.
  - by apply NoDup_filter.
Qed.

(** The chooser looks at membership only. *)
Lemma choose_type_priority_ext (l1 l2 : list (option string)) :
  (∀ g, g ∈ l1 ↔ g ∈ l2) → choose_type_priority l1 = choose_type_priority l2.
Proof.
  intros E. unfold choose_type_priority.
  pose proof (E (Some "str")). pose proof (E (Some "float")).
  pose proof (E (Some "int")). pose proof (E (Some "date")).
  repeat case_decide; prop_solver.
Qed.

Lemma choose_type_priority_drop_duplicates (l : list (option string)) :
  choose_type_priority (drop_duplicates l) = choose_type_priority l.
Proof. apply choose_type_priority_ext, elem_of_drop_duplicates. Qed.

Lemma choose_type_priority_range (types : list (option string)) :
  choose_type_priority types ∈ sql_types.
Proof.
  unfold choose_type_priority, sql_types. repeat case_decide; sets_solver.
Qed.

Lemma getitem_Some_NoDup (ss : list (string * list Cell)) c vs :
  NoDup ss.*1 → (c, vs) ∈ ss → getitem ss c = Some vs.
Proof.
  induction ss as [|[c' vs'] ss IH]; simpl; intros ND Hin.
  - by apply elem_of_nil in Hin.
  - apply NoDup_cons in ND as [Hni ND].
    apply elem_of_cons in Hin as [Heq|Hin].
    + injection Heq as -> ->. by rewrite decide_True.
    + rewrite decide_False; [by apply IH|].
      intros ->. apply Hni. apply list_elem_of_fmap. by exists (c, vs).
Qed.

Lemma getitem_head n (ss : list (string * list Cell)) c :
  getitem ((λ s, (s.1, take n s.2)) <$> ss) c = take n <$> getitem ss c.
Proof.
  induction ss as [|[c' vs'] ss IH]; simpl; [done|].
  case_decide; [done|apply IH].
Qed.

Lemma columns_df_head n df : columns (df_head n df) = columns df.
Proof.
  unfold columns, df_head; simpl. rewrite <- list_fmap_compose.
  by apply list_fmap_ext.
Qed.

(** The dict a loop [for k in l: d[k] = f(k)] leaves behind. *)
Lemma lookup_foldl_insert {V} (f : string → V) (l : list string)
    (m : gmap string V) (k : string) :
  foldl (λ d c, <[c := f c]> d) m l !! k
  = if decide (k ∈ l) then Some (f k) else m !! k.
Proof.
  revert m. induction l as [|c l IH]; intros m; cbn [foldl].
  - by rewrite decide_False by apply not_elem_of_nil.
  - rewrite IH. destruct (decide (k ∈ l)) as [Hl|Hl].
    + by rewrite (decide_True (P := k ∈ c :: l)) by (by right).
    + destruct (decide (k = c)) as [->|Hne].
      * rewrite (decide_True (P := c ∈ c :: l)) by left.
        by rewrite lookup_insert_eq.
      * rewrite (decide_False (P := k ∈ c :: l))
          by (rewrite elem_of_cons; prop_solver).
        by rewrite lookup_insert_ne.
Qed.

Lemma dom_foldl_insert {V} (f : string → V) (l : list string)
    (m : gmap string V) :
  dom (foldl (λ d c, <[c := f c]> d) m l) = list_to_set l ∪ dom m.
Proof.
  revert m. induction l as [|c l IH]; intros m; cbn [foldl].
  - sets_solver.
  - rewrite IH, dom_insert_L. sets_solver.
Qed.

(** ** Lemmas on the type inference *)

Lemma types_loop_lookup (df_partial : DataFrame) (column : string) :
  types_loop df_partial !! column
  = if decide (column ∈ columns df_partial)
    then Some (choose_type_priority
                 (guess_str_type <$> default [] (df_getitem df_partial column)))
    else None.
Proof.
  unfold types_loop.
  rewrite (lookup_foldl_insert
    (λ c, choose_type_priority (column_types df_partial c))).
  unfold column_types. rewrite choose_type_priority_drop_duplicates.
  by rewrite lookup_empty.
Qed.

Lemma identify_lookup_elem (df : DataFrame) (column : string) :
  column ∈ columns df →
  identify_colummns_types df !! column
  = Some (choose_type_priority
            (guess_str_type <$> default [] (take 100 <$> df_getitem df column))).
Proof.
  intros Hin. unfold identify_colummns_types.
  rewrite types_loop_lookup, columns_df_head, decide_True by done.
  unfold df_getitem, df_head; simpl. by rewrite getitem_head.
Qed.

Lemma identify_lookup_absent (df : DataFrame) (column : string) :
  column ∉ columns df → identify_colummns_types df !! column = None.
Proof.
  intros Hni. unfold identify_colummns_types.
  by rewrite types_loop_lookup, columns_df_head, decide_False.
Qed.

(** The entry of a column of a table with unique names is the choice
    over the guesses of its first 100 values. *)
Lemma identify_lookup_series (df : DataFrame) column values :
  NoDup (columns df) → (column, values) ∈ series df →
  identify_colummns_types df !! column
  = Some (choose_type_priority (guess_str_type <$> take 100 values)).
Proof.
  intros ND Hin. rewrite identify_lookup_elem.
  - unfold df_getitem. by rewrite (getitem_Some_NoDup _ _ values).
  - apply list_elem_of_fmap. by exists (column, values).
Qed.

(** The guess of a text that is not the missing marker and has not the
    shape of a date is the name of its literal type, or [str]. *)
Lemma guess_str_type_plain (value : Cell) (_str : string) :
  PyStr.strip (py_str value) = _str →
  String.eqb _str "nan" = false →
  date_shaped _str = false →
  guess_str_type value
  = Some (match literal_eval _str with
          | Some t => type_name t
          | None => "str"
          end).
Proof.
  intros <- Hnan Hshape. unfold guess_str_type.
  rewrite Hnan, Hshape. cbn [andb]. by destruct (literal_eval _).
Qed.

(** C1. The entry of a column of a table is chosen by the priority
    string > float > integer > date over the guesses of its sampled cells:
    [VARCHAR(100)] if a cell guesses [str], else [DECIMAL(17,4)] if one
    guesses [float], else [INT] if one guesses [int], else [DATETIME] if
    one guesses [date]. How often a guess occurs does not count: two lists
    with the same guesses give the same choice. In particular, with "1"
    and "2" integer literals, "2.5" a float literal and "x" no literal, the
    column "1", "2.5", "x" resolves to [VARCHAR(100)], the column "1", "2"
    to [INT] and the column "1", "2.5" to [DECIMAL(17,4)]. *)
Theorem priority_string_float_integer_date :
  (∀ (df : DataFrame) (column : string) (values : list Cell),
     NoDup (columns df) → (column, values) ∈ series df →
     let guesses := guess_str_type <$> take 100 values in
     ∃ entry, identify_colummns_types df !! column = Some entry ∧
       (Some "str" ∈ guesses → entry = "VARCHAR(100)") ∧
       (Some "str" ∉ guesses → Some "float" ∈ guesses →
        entry = "DECIMAL(17,4)") ∧
       (Some "str" ∉ guesses → Some "float" ∉ guesses →
        Some "int" ∈ guesses → entry = "INT") ∧
       (Some "str" ∉ guesses → Some "float" ∉ guesses →
        Some "int" ∉ guesses → Some "date" ∈ guesses → entry = "DATETIME"))
  ∧ (∀ types1 types2 : list (option string),
       (∀ g, g ∈ types1 ↔ g ∈ types2) →
       choose_type_priority types1 = choose_type_priority types2)
  ∧ (literal_eval "1" = Some TInt → literal_eval "2" = Some TInt →
     literal_eval "2.5" = Some TFloat → literal_eval "x" = None →
     identify_colummns_types (one_column "c" [CStr "1"; CStr "2.5"; CStr "x"])
       !! "c" = Some "VARCHAR(100)"
     ∧ identify_colummns_types (one_column "c" [CStr "1"; CStr "2"]) !! "c"
       = Some "INT"
     ∧ identify_colummns_types (one_column "c" [CStr "1"; CStr "2.5"]) !! "c"
       = Some "DECIMAL(17,4)").
Proof.
  split; [|split].
  - intros df column values ND Hin guesses.
    exists (choose_type_priority guesses). split.
    + by apply identify_lookup_series.
    + unfold choose_type_priority.
      repeat split; intros; repeat case_decide; done.
  - apply choose_type_priority_ext.
  - intros H1 H2 H25 Hx.
    assert (G1 : guess_str_type (CStr "1") = Some "int")
      by (rewrite (guess_str_type_plain _ "1") by done; by rewrite H1).
    assert (G2 : guess_str_type (CStr "2") = Some "int")
      by (rewrite (guess_str_type_plain _ "2") by done; by rewrite H2).
    assert (G25 : guess_str_type (CStr "2.5") = Some "float")
      by (rewrite (guess_str_type_plain _ "2.5") by done; by rewrite H25).
    assert (Gx : guess_str_type (CStr "x") = Some "str")
      by (rewrite (guess_str_type_plain _ "x") by done; by rewrite Hx).
    assert (ND : NoDup ["c"]) by (apply NoDup_singleton).
    repeat split.
    + rewrite (identify_lookup_series _ "c" [CStr "1"; CStr "2.5"; CStr "x"]);
        [|done|by left].
      cbn [take fmap list_fmap]. by rewrite G1, G25, Gx.
    + rewrite (identify_lookup_series _ "c" [CStr "1"; CStr "2"]);
        [|done|by left].
      cbn [take fmap list_fmap]. by rewrite G1, G2.
    + rewrite (identify_lookup_series _ "c" [CStr "1"; CStr "2.5"]);
        [|done|by left].
      cbn [take fmap list_fmap]. by rewrite G1, G25.
Qed.

Lemma date_shaped_spec (_str : string) :
  date_shaped _str = true ↔
  (PyStr.contains "-" _str = true ∨ PyStr.contains "/" _str = true)
  ∧ 7 < PyStr.len _str < 11.
Proof.
  unfold date_shaped. cbn [existsb].
  rewrite !andb_true_iff, !orb_true_iff, !Nat.ltb_lt.
  forget_unused. intuition discriminate.
Qed.

Lemma type_name_not_date (t : PyLitType) : type_name t ≠ "date".
Proof. by destruct t. Qed.

(** C2. A value is guessed [date] exactly when its trimmed text contains
    '-' or '/', its length is strictly between 7 and 11 and the date parser
    accepts it. A text of length at most 7 or at least 11 is never guessed
    [date], whatever the date parser says of it: unless it is the missing
    marker, its guess is the name of its literal type, or [str] when it is
    no literal. *)
Theorem guess_date_window (value : Cell) :
  let _str := PyStr.strip (py_str value) in
  (guess_str_type value = Some "date" ↔
     (PyStr.contains "-" _str = true ∨ PyStr.contains "/" _str = true)
     ∧ 7 < PyStr.len _str < 11 ∧ dateparse _str = true)
  ∧ (PyStr.len _str ≤ 7 ∨ 11 ≤ PyStr.len _str →
     guess_str_type value ≠ Some "date"
     ∧ guess_str_type value
       = if String.eqb _str "nan" then None
         else Some (match literal_eval _str with
                    | Some t => type_name t
                    | None => "str"
                    end)).
Proof.
  intros _str.
  assert (Hlit : Some (match literal_eval _str with
                       | Some t => type_name t
                       | None => "str"
                       end) ≠ Some "date").
  { destruct (literal_eval _str) as [t|]; [|done].
    intros [= E]. by apply (type_name_not_date t). }
  assert (Hguess : guess_str_type value
                   = if String.eqb _str "nan" then None
                     else if date_shaped _str && dateparse _str then Some "date"
                     else Some (match literal_eval _str with
                                | Some t => type_name t
                                | None => "str"
                                end)).
  { unfold guess_str_type. fold _str. by destruct (literal_eval _str). }
  split.
  - rewrite Hguess. split.
    + destruct (String.eqb _str "nan"); [done|].
      destruct (date_shaped _str && dateparse _str) eqn:E; [|done].
      apply andb_true_iff in E as [Hs Hd]. apply date_shaped_spec in Hs.
      prop_solver.
    + intros (Hc & Hl & Hd).
      assert (Hs : date_shaped _str = true)
        by (apply date_shaped_spec; prop_solver).
      destruct (String.eqb _str "nan") eqn:En.
      * apply String.eqb_eq in En. rewrite En in Hl. cbn in Hl. lia.
      * by rewrite Hs, Hd.
  - intros Hlen.
    assert (Hs : date_shaped _str = false).
    { apply not_true_iff_false. rewrite date_shaped_spec. lia. }
    rewrite Hguess, Hs. cbn [andb]. split; [|done].
    by destruct (String.eqb _str "nan").
Qed.

Lemma choose_type_priority_all_int (types : list (option string)) :
  types ≠ [] → Forall (λ g, g = Some "int") types →
  choose_type_priority types = "INT".
Proof.
  intros Hne Hall. rewrite Forall_forall in Hall.
  assert (Hin : Some "int" ∈ types).
  { destruct types as [|g types]; [done|].
    rewrite (Hall g) by left. left. }
  unfold choose_type_priority.
  repeat case_decide; try done;
    match goal with H : Some _ ∈ types |- _ => by apply Hall in H end.
Qed.

Lemma choose_type_priority_default (types : list (option string)) :
  Some "str" ∉ types → Some "float" ∉ types → Some "int" ∉ types →
  Some "date" ∉ types → choose_type_priority types = "VARCHAR(100)".
Proof. intros. unfold choose_type_priority. by repeat case_decide. Qed.

(** The frames with the same sample have the same schema. *)
Lemma identify_sample (df1 df2 : DataFrame) :
  series (df_head 100 df1) = series (df_head 100 df2) →
  identify_colummns_types df1 = identify_colummns_types df2.
Proof.
  intros E. apply map_eq. intros column.
  unfold identify_colummns_types.
  rewrite !types_loop_lookup. unfold df_getitem, columns. by rewrite E.
Qed.

(** C5. Type inference looks at the first 100 rows only: two tables
    with the same columns that agree on the first 100 values of every
    column get the same schema, so no value from row 100 on changes an
    entry. In particular a column whose first 100 values guess [int]
    resolves to [INT] whatever follows them. *)
Theorem sample_is_first_100_rows :
  (∀ df1 df2 : DataFrame,
     Forall2 (λ s1 s2, s1.1 = s2.1 ∧ take 100 s1.2 = take 100 s2.2)
             (series df1) (series df2) →
     identify_colummns_types df1 = identify_colummns_types df2)
  ∧ (∀ (df : DataFrame) (column : string) (first rest : list Cell),
       NoDup (columns df) → (column, first ++ rest) ∈ series df →
       length first = 100 →
       Forall (λ v, guess_str_type v = Some "int") first →
       identify_colummns_types df !! column = Some "INT").
Proof.
  split.
  - intros df1 df2 HF. apply identify_sample. cbn [df_head series].
    induction HF as [|[c1 v1] [c2 v2] l1 l2 [Hc Hv] _ IH]; [done|].
    cbn in *. by rewrite Hc, Hv, IH.
  - intros df column first rest ND Hin Hlen Hall.
    rewrite (identify_lookup_series _ _ _ ND Hin).
    rewrite take_app_length' by done. f_equal.
    apply choose_type_priority_all_int.
    + destruct first; [done|done].
    + by apply Forall_fmap.
Qed.

(** C6. A value whose trimmed text is the missing marker [nan] gets
    no guess, and a column whose sampled values are all missing resolves to
    the default [VARCHAR(100)]. *)
Theorem missing_values_default :
  (∀ value : Cell,
     PyStr.strip (py_str value) = "nan" → guess_str_type value = None)
  ∧ (∀ (df : DataFrame) (column : string) (values : list Cell),
       NoDup (columns df) → (column, values) ∈ series df →
       Forall (λ v, PyStr.strip (py_str v) = "nan") (take 100 values) →
       identify_colummns_types df !! column = Some "VARCHAR(100)").
Proof.
  assert (Hnan : ∀ value : Cell,
    PyStr.strip (py_str value) = "nan" → guess_str_type value = None).
  { intros value E. unfold guess_str_type. by rewrite E. }
  split; [done|].
  intros df column values ND Hin Hall.
  rewrite (identify_lookup_series _ _ _ ND Hin). f_equal.
  assert (Hg : Forall (λ g, g = None) (guess_str_type <$> take 100 values)).
  { apply Forall_fmap. eapply Forall_impl; [done|]. intros v. apply Hnan. }
  rewrite Forall_forall in Hg.
  apply choose_type_priority_default; intros Hc; by apply Hg in Hc.
Qed.

(** C9. Type inference is deterministic and leaves the table as it
    is: called twice, one call after the other, on a reference to the same
    frame object, [identify_colummns_types] returns the same mapping both
    times, the mapping of the frame, and the frame is unchanged. *)
Theorem inference_twice_same_mapping
    (heap : list DataFrame) (dataframe : nat) (df : DataFrame) :
  heap !! dataframe = Some df →
  ∃ (types : gmap string string) (heap1 heap2 : list DataFrame),
    identify_colummns_types_call dataframe heap = Some (types, heap1)
    ∧ identify_colummns_types_call dataframe heap1 = Some (types, heap2)
    ∧ heap1 !! dataframe = Some df
    ∧ types = identify_colummns_types df.
Proof.
  intros Hdf.
  assert (Hcall : ∀ h, h !! dataframe = Some df →
    identify_colummns_types_call dataframe h
    = Some (identify_colummns_types df, h ++ [df_head 100 df])).
  { intros h Hh. unfold identify_colummns_types_call, slice_object.
    rewrite Hh. cbn. by rewrite list_lookup_middle. }
  assert (Hkeep : (heap ++ [df_head 100 df]) !! dataframe = Some df).
  { by apply lookup_app_l_Some. }
  exists (identify_colummns_types df), (heap ++ [df_head 100 df]),
    ((heap ++ [df_head 100 df]) ++ [df_head 100 df]).
  by rewrite !Hcall.
Qed.

(** C10. The mapping of a table has the column names of the table as
    its keys and one of the four SQL types as each value; the chooser
    returns one of the four on every list of guesses, and
    [VARCHAR(100)] when no guess is one of [str], [float], [int] and
    [date], so for a column of booleans or of structured literals. *)
Theorem schema_keys_and_values :
  (∀ df : DataFrame,
     dom (identify_colummns_types df) = list_to_set (columns df)
     ∧ map_Forall (λ _ entry, entry ∈ sql_types) (identify_colummns_types df))
  ∧ (∀ types : list (option string), choose_type_priority types ∈ sql_types)
  ∧ (∀ types : list (option string),
       Forall (λ g, g ∉ [Some "str"; Some "float"; Some "int"; Some "date"]) types →
       choose_type_priority types = "VARCHAR(100)")
  ∧ (∀ t : PyLitType, t ∉ [TStr; TFloat; TInt] →
       choose_type_priority [Some (type_name t)] = "VARCHAR(100)").
Proof.
  assert (Hdefault : ∀ types : list (option string),
    Forall (λ g, g ∉ [Some "str"; Some "float"; Some "int"; Some "date"]) types →
    choose_type_priority types = "VARCHAR(100)").
  { intros types Hall. rewrite Forall_forall in Hall.
    apply choose_type_priority_default; intros Hin; apply Hall in Hin;
      apply Hin; sets_solver. }
  repeat split.
  - unfold identify_colummns_types, types_loop.
    rewrite (dom_foldl_insert
      (λ c, choose_type_priority (column_types (df_head 100 df) c))).
    rewrite columns_df_head, dom_empty_L. sets_solver.
  - intros column entry Hl.
    destruct (decide (column ∈ columns df)) as [Hin|Hni].
    + rewrite identify_lookup_elem in Hl by done. injection Hl as <-.
      apply choose_type_priority_range.
    + by rewrite identify_lookup_absent in Hl.
  - apply choose_type_priority_range.
  - done.
  - intros t Ht. apply Hdefault. constructor; [|done].
    destruct t; try sets_solver; exfalso; apply Ht; sets_solver.
Qed.

(** ** Lemmas on the CSV export *)

Lemma to_csv_no_index (df : DataFrame) :
  to_csv df false true = columns df :: (csv_row df <$> seq 0 (index_len df)).
Proof. done. Qed.

Lemma length_csv_row (df : DataFrame) (i : nat) :
  length (csv_row df i) = length (columns df).
Proof. unfold csv_row, columns. by rewrite !length_fmap. Qed.

(** With [index=True] every record has one more field, the row label. *)
Lemma to_csv_index_fields (df : DataFrame) :
  Forall (λ record, length record = S (length (columns df))) (to_csv df true true).
Proof.
  unfold to_csv. constructor; [done|].
  apply Forall_fmap, Forall_forall. intros i _. cbn. by rewrite length_csv_row.
Qed.

(** C8. The CSV export writes, in UTF-8 and to the file named after
    the output name, the header record holding the column names and then
    one record per row, rows in the order of the table and, in each
    record, the values in the order of the columns; no record has a
    field for the index. *)
Theorem export_csv_layout (dataframe : DataFrame) (output_name : string) :
  ∃ records : list (list string),
    export_csv dataframe output_name
    = [CsvFile (output_name +:+ ".csv") "utf-8" records]
    ∧ length records = S (index_len dataframe)
    ∧ records !! 0 = Some (columns dataframe)
    ∧ (∀ i j name values v,
         i < index_len dataframe →
         series dataframe !! j = Some (name, values) → values !! i = Some v →
         ∃ record, records !! S i = Some record
                   ∧ record !! j = Some (csv_text v))
    ∧ Forall (λ record, length record = length (columns dataframe)) records.
Proof.
  exists (to_csv dataframe false true). rewrite to_csv_no_index.
  split; [done|]. split; [|split; [done|split]].
  - cbn. by rewrite length_fmap, length_seq.
  - intros i j name values v Hi Hj Hv. exists (csv_row dataframe i). split.
    + change ((csv_row dataframe <$> seq 0 (index_len dataframe)) !! i
              = Some (csv_row dataframe i)).
      by rewrite list_lookup_fmap, lookup_seq_lt.
    + unfold csv_row. rewrite list_lookup_fmap, Hj. cbn.
      by rewrite (nth_lookup_Some _ _ _ _ Hv).
  - constructor; [done|].
    apply Forall_fmap, Forall_forall. intros i _. apply length_csv_row.
Qed.

(** ** Lemmas on the readers *)

Lemma try_except_total {A} (body : PyResult (option A)) :
  ∃ r, try_except body (λ e, mret None) = Ok r.
Proof. destruct body as [r|e]; [by exists r|by exists None]. Qed.

Lemma try_except_raise {A} (body : PyResult (option A)) (e : Exn) :
  body = Raise e → try_except body (λ e, mret None) = Ok None.
Proof. by intros ->. Qed.

(** The readers of JSON, XML and RDF files catch what their body raises;
    they and the branch of the other extensions never raise. *)
Lemma read_file_guarded (filename : string) :
  (PyStr.rpartition "." filename).2 ∉ ["xlsx"; "xls"; "csv"] →
  ∃ r, read_file filename = Ok r.
Proof.
  intros Hext. unfold read_file.
  rewrite decide_False by sets_solver.
  rewrite decide_False by sets_solver.
  repeat case_decide; try apply try_except_total. by exists None.
Qed.

(** C3. A failure of [pandas.read_csv] or [pandas.read_excel] on the
    content of a file with the extension csv, xlsx or xls is not caught:
    [read_file] raises it, and so does [process_file], before any output. *)
Theorem tabular_parse_failure_propagates (title filename : string) (e : Exn) :
  let path := path_join [path_join [title; "download"]; filename] in
  ((PyStr.rpartition "." path).2 = "csv" ∧ pandas_read_csv path = Raise e)
  ∨ ((PyStr.rpartition "." path).2 ∈ ["xlsx"; "xls"]
     ∧ pandas_read_excel path = Raise e) →
  read_file path = Raise e ∧ process_file title filename = ([], Raise e).
Proof.
  intros path Hfail.
  assert (Hread : read_file path = Raise e).
  { unfold read_file. destruct Hfail as [[Hext Hcsv]|[Hext Hxl]].
    - rewrite Hext, decide_False by sets_solver.
      rewrite decide_True by done. by rewrite Hcsv.
    - rewrite decide_True by done. by rewrite Hxl. }
  split; [done|].
  unfold process_file. destruct (filename_and_ext filename) as [b_name b_ext].
  fold path. by rewrite Hread.
Qed.

(** ** Lemmas on the orchestration *)

Lemma for_each_skip {A} (body : A → list Event * PyResult ()) (l : list A) :
  Forall (λ x, body x = ([], Ok ())) l → for_each body l = ([], Ok ()).
Proof.
  induction 1 as [|x l Hx _ IH]; [done|].
  cbn. by rewrite Hx, IH.
Qed.

(** An archive whose entries all have an extension outside
    [ALLOWED_EXTS]: nothing is extracted, nothing is processed. *)
Lemma process_zip_skips (title filename : string) (namelist : list string) :
  zip_namelist (path_join [path_join [title; "download"]; filename]) = Ok namelist →
  Forall (λ f_name, (filename_and_ext f_name).2 ∉ ALLOWED_EXTS) namelist →
  let folder := path_join [path_join [title; "download"];
                           (filename_and_ext filename).1] in
  process_zip title filename
  = (if path_exists folder then [] else [Mkdir folder], Ok ()).
Proof.
  intros Hzip Hall folder. unfold process_zip. rewrite Hzip.
  subst folder. destruct (filename_and_ext filename) as [z_name z_ext].
  rewrite for_each_skip.
  - cbn. by rewrite app_nil_r.
  - eapply Forall_impl; [done|]. intros f_name Hext. cbn beta in *.
    destruct (filename_and_ext f_name) as [b_name b_ext].
    by rewrite decide_False.
Qed.

(** An archive of one entry with an allowed extension: the entry is
    extracted to the folder of the archive and handed to [process_file]. *)
Lemma process_zip_allowed (title filename f_name : string) :
  zip_namelist (path_join [path_join [title; "download"]; filename]) = Ok [f_name] →
  (filename_and_ext f_name).2 ∈ ALLOWED_EXTS →
  let folder := path_join [path_join [title; "download"];
                           (filename_and_ext filename).1] in
  let run := process_file title (path_join [path_join [title; "download"];
                                            (filename_and_ext filename).1; f_name]) in
  process_zip title filename
  = ((if path_exists folder then [] else [Mkdir folder])
     ++ Unzip f_name folder :: run.1, run.2).
Proof.
  intros Hzip Hext folder run. unfold process_zip. rewrite Hzip.
  subst folder run. destruct (filename_and_ext filename) as [z_name z_ext].
  cbn [for_each]. destruct (filename_and_ext f_name) as [b_name b_ext].
  rewrite decide_True by done. cbn [fst snd].
  destruct (process_file _ _) as [events [[]|e]]; cbn; by rewrite ?app_nil_r.
Qed.

(** C4. A zip archive whose entries all have the extension csv: no
    entry is extracted and none is processed, the run of [process_zip]
    creates at most the folder of the archive. *)
Theorem zip_csv_entries_skipped (title filename : string) (namelist : list string) :
  zip_namelist (path_join [path_join [title; "download"]; filename]) = Ok namelist →
  Forall (λ f_name, (filename_and_ext f_name).2 = "csv") namelist →
  let folder := path_join [path_join [title; "download"];
                           (filename_and_ext filename).1] in
  process_zip title filename
  = (if path_exists folder then [] else [Mkdir folder], Ok ()).
Proof.
  intros Hzip Hall. apply (process_zip_skips _ _ namelist); [done|].
  eapply Forall_impl; [done|]. intros f_name ->. cbn. sets_solver.
Qed.

(** ** Lemmas on the JSON reader *)

Lemma py_getitem_child (v : Json) (key : string) (x : Json) :
  py_getitem v key = Ok x ↔ child v key = Some x.
Proof.
  unfold py_getitem, child. destruct v; try (split; discriminate).
  destruct (dict_get fields key); split; congruence.
Qed.

Lemma py_getitem_child_None (v : Json) (key : string) :
  child v key = None → ∃ e, py_getitem v key = Raise e.
Proof.
  unfold py_getitem, child. destruct v; try (by eexists).
  intros ->. by eexists.
Qed.

Lemma key_path_step (path : list string) (found : option Json) :
  foldl (λ found key, v ← found; child v key) found path
  = v ← found; key_path path v.
Proof.
  revert found. induction path as [|key path IH]; intros found; cbn [foldl].
  - by destruct found.
  - rewrite IH. destruct found as [v|]; cbn; [|done].
    unfold key_path. cbn [foldl]. by rewrite IH.
Qed.

Lemma key_path_cons (key : string) (path : list string) (doc : Json) :
  key_path (key :: path) doc = v ← child doc key; key_path path v.
Proof. unfold key_path at 1. cbn [foldl]. apply key_path_step. Qed.

Lemma key_path_single (key : string) (doc : Json) :
  key_path [key] doc = child doc key.
Proof. rewrite key_path_cons. by destruct (child doc key). Qed.







(** ** Lemmas on strings *)

Lemma ascii_eqb_sym (c d : ascii) : Ascii.eqb c d = Ascii.eqb d c.
Proof.
  destruct (Ascii.eqb_spec c d) as [->|Hne].
  - by rewrite Ascii.eqb_refl.
  - symmetry. apply Ascii.eqb_neq. congruence.
Qed.

Lemma contains_app (c : ascii) (a b : string) :
  PyStr.contains c (a +:+ b) = PyStr.contains c a || PyStr.contains c b.
Proof.
  induction a as [|d a IH]; simpl; [done|]. by rewrite IH, orb_assoc.
Qed.

Lemma contains_chars (c : ascii) (s : string) :
  PyStr.contains c s = true ↔ c ∈ String.list_ascii_of_string s.
Proof.
  induction s as [|d s IH]; cbn.
  - split; [done|]. by intros ?%elem_of_nil.
  - rewrite orb_true_iff, elem_of_cons, IH.
    destruct (Ascii.eqb_spec c d); forget_unused; intuition congruence.
Qed.

Lemma split_not_nil (sep : ascii) (s : string) : PyStr.split sep s ≠ [].
Proof.
  destruct s as [|c s]; cbn; [done|].
  destruct (Ascii.eqb c sep); [done|]. by destruct (PyStr.split sep s).
Qed.

(** [(a + sep + b).split(sep) == a.split(sep) + b.split(sep)] *)
Lemma split_app (sep : ascii) (a b : string) :
  PyStr.split sep (a +:+ String sep b) = PyStr.split sep a ++ PyStr.split sep b.
Proof.
  induction a as [|c a IH]; simpl.
  - by rewrite Ascii.eqb_refl.
  - destruct (Ascii.eqb c sep); [by rewrite IH|].
    rewrite IH. pose proof (split_not_nil sep a).
    by destruct (PyStr.split sep a).
Qed.

Lemma split_no_sep (sep : ascii) (s : string) :
  PyStr.contains sep s = false → PyStr.split sep s = [s].
Proof.
  induction s as [|c s IH]; cbn; [done|].
  rewrite orb_false_iff, ascii_eqb_sym. intros [-> Hs]. by rewrite IH.
Qed.

Lemma split_pieces (sep : ascii) (s : string) :
  Forall (λ p, PyStr.contains sep p = false) (PyStr.split sep s).
Proof.
  induction s as [|c s IH]; cbn.
  - by repeat constructor.
  - destruct (Ascii.eqb c sep) eqn:E; [by constructor|].
    pose proof (split_not_nil sep s).
    destruct (PyStr.split sep s) as [|p ps]; [done|].
    apply Forall_cons in IH as [Hp Hps]. constructor; [|done].
    cbn. by rewrite ascii_eqb_sym, E, Hp.
Qed.

Lemma join_cons (sep p : string) (l : list string) :
  l ≠ [] → PyStr.join sep (p :: l) = p +:+ sep +:+ PyStr.join sep l.
Proof. by destruct l. Qed.

(** [sep.join(s.split(sep)) == s] *)
Lemma join_split (sep : ascii) (s : string) :
  PyStr.join (String sep "") (PyStr.split sep s) = s.
Proof.
  induction s as [|c s IH]; [done|].
  pose proof (split_not_nil sep s) as Hn.
  change (PyStr.split sep (String c s))
    with (if Ascii.eqb c sep then EmptyString :: PyStr.split sep s
          else match PyStr.split sep s with
               | p :: ps => String c p :: ps
               | [] => [String c EmptyString]
               end).
  destruct (Ascii.eqb_spec c sep) as [->|Hne].
  - rewrite join_cons by done. simpl. by rewrite IH.
  - destruct (PyStr.split sep s) as [|p ps] eqn:E; [done|].
    destruct ps as [|q ps].
    + simpl in *. by rewrite IH.
    + rewrite join_cons in * by done. by rewrite <- IH.
Qed.

Lemma last_app_not_nil {A} (l1 l2 : list A) (d : A) :
  l2 ≠ [] → List.last (l1 ++ l2) d = List.last l2 d.
Proof.
  intros Hn. induction l1 as [|x l1 IH]; [done|].
  cbn [app List.last]. rewrite <- IH.
  destruct (l1 ++ l2) eqn:E; [|done]. by apply app_eq_nil in E as [_ ?].
Qed.

Lemma last_split_app (sep : ascii) (a b : string) :
  PyStr.contains sep b = false →
  List.last (PyStr.split sep (a +:+ String sep b)) "" = b.
Proof.
  intros Hb. rewrite split_app, (split_no_sep sep b) by done.
  by rewrite List.last_last.
Qed.

Lemma hd_split_app (sep : ascii) (a b : string) :
  PyStr.contains sep a = false →
  hd "" (PyStr.split sep (a +:+ String sep b)) = a.
Proof.
  intros Ha. by rewrite split_app, (split_no_sep sep a).
Qed.

Lemma hd_split_no_sep (sep : ascii) (s : string) :
  PyStr.contains sep (hd "" (PyStr.split sep s)) = false.
Proof.
  pose proof (split_pieces sep s) as HF. pose proof (split_not_nil sep s).
  destruct (PyStr.split sep s); [done|]. by apply Forall_cons in HF as [? _].
Qed.

Lemma last_split_no_sep (sep : ascii) (s : string) :
  PyStr.contains sep (List.last (PyStr.split sep s) "") = false.
Proof.
  pose proof (split_pieces sep s) as HF. pose proof (split_not_nil sep s) as Hn.
  destruct (exists_last Hn) as (l & p & E). rewrite E in *.
  rewrite List.last_last. apply Forall_app in HF as [_ HF].
  by apply Forall_cons in HF as [? _].
Qed.

(** ** Properties of the file names *)

Lemma chars_inj (s1 s2 : string) :
  String.list_ascii_of_string s1 = String.list_ascii_of_string s2 → s1 = s2.
Proof.
  intros E. rewrite <- (String.string_of_list_ascii_of_string s1),
    <- (String.string_of_list_ascii_of_string s2). by rewrite E.
Qed.

Lemma filter_keeps_all {A} (P : A → Prop) `{!∀ x, Decision (P x)} (l : list A) :
  (∀ x, x ∈ l → P x) → filter P l = l.
Proof.
  induction l as [|x l IH]; intros Hall; [done|].
  rewrite filter_cons_True by (apply Hall; left).
  rewrite IH; [done|]. intros y Hy. apply Hall. by right.
Qed.

Lemma remove_char_chars (c : ascii) (s : string) :
  String.list_ascii_of_string (remove_char c s)
  = filter (λ d, d ≠ c) (String.list_ascii_of_string s).
Proof.
  induction s as [|d s IH]; [done|]. cbn [remove_char String.list_ascii_of_string].
  rewrite filter_cons. destruct (Ascii.eqb_spec d c) as [->|Hne].
  - by rewrite decide_False by (intros H; by apply H).
  - rewrite decide_True by done. cbn. by rewrite IH.
Qed.

Lemma remove_chars_chars (l : list ascii) (s : string) :
  String.list_ascii_of_string (foldl (λ filename chr_, remove_char chr_ filename) s l)
  = filter (λ d, d ∉ l) (String.list_ascii_of_string s).
Proof.
  revert s. induction l as [|c l IH]; intros s; cbn [foldl].
  - symmetry. apply filter_keeps_all. intros d _. apply not_elem_of_nil.
  - rewrite IH, remove_char_chars, list_filter_filter.
    apply list_filter_iff. intros d. rewrite not_elem_of_cons. prop_solver.
Qed.

(** X1. [sanity_name] keeps, in their order, the characters of the
    name that are none of the seven characters of [to_replace], and no
    other: the loop of replacements is one filter. *)
Theorem sanity_name_filters (filename : string) :
  String.list_ascii_of_string (sanity_name filename)
  = filter (λ c, c ∉ to_replace) (String.list_ascii_of_string filename)
  ∧ ∀ c, c ∈ to_replace → PyStr.contains c (sanity_name filename) = false.
Proof.
  assert (E := remove_chars_chars to_replace filename). split; [exact E|].
  intros c Hc. apply not_true_iff_false. rewrite contains_chars.
  unfold sanity_name. rewrite E, list_elem_of_filter. prop_solver.
Qed.

(** X2. Cleaning a name twice is cleaning it once, and a name with
    none of the seven characters is left as it is. *)
Theorem sanity_name_idempotent (filename : string) :
  sanity_name (sanity_name filename) = sanity_name filename
  ∧ ((∀ c, c ∈ to_replace → PyStr.contains c filename = false) →
     sanity_name filename = filename).
Proof.
  assert (Hkeep : ∀ s, (∀ c, c ∈ to_replace → PyStr.contains c s = false) →
                       sanity_name s = s).
  { intros s Hs. apply chars_inj. unfold sanity_name.
    rewrite remove_chars_chars. apply filter_keeps_all.
    intros c Hc Hin. apply contains_chars in Hc. rewrite Hs in Hc; done. }
  split; [|apply Hkeep].
  apply Hkeep. intros c Hc. unfold sanity_name.
  apply not_true_iff_false. rewrite contains_chars, remove_chars_chars.
  rewrite list_elem_of_filter. prop_solver.
Qed.

Lemma contains_join (c : ascii) (sep : string) (l : list string) :
  PyStr.contains c (PyStr.join sep l) = false →
  Forall (λ p, PyStr.contains c p = false) l.
Proof.
  induction l as [|p l IH]; [done|]. destruct l as [|q l].
  - by repeat constructor.
  - rewrite join_cons, !contains_app, !orb_false_iff by done.
    intros (Hp & _ & Hl). constructor; [done|by apply IH].
Qed.

Lemma basename_no_slash (s : string) :
  PyStr.contains "/" s = false → basename s = s.
Proof. intros Hs. unfold basename. by rewrite split_no_sep. Qed.

Lemma basename_app (dir base : string) :
  PyStr.contains "/" base = false → basename (dir +:+ String "/" base) = base.
Proof. intros Hb. unfold basename. by apply last_split_app. Qed.

Lemma basename_clean (filename : string) :
  PyStr.contains "/" (basename filename) = false.
Proof. apply last_split_no_sep. Qed.

(** What [filename_and_ext] returns for a base name. *)
Lemma filename_and_ext_base (filename base : string) :
  basename filename = base →
  filename_and_ext filename
  = (hd "" (PyStr.split "." base), List.last (PyStr.split "." base) "").
Proof. by intros <-. Qed.

Lemma append_cons (c : ascii) (a b : string) :
  String c a +:+ b = String c (a +:+ b).
Proof. done. Qed.

Lemma app_slash (dir name : string) :
  (dir +:+ "/") +:+ name = dir +:+ String "/" name.
Proof.
  induction dir as [|d dir IH]; [done|]. by rewrite !append_cons, IH.
Qed.

Lemma filename_and_ext_clean (filename : string) (c : ascii) :
  c ∈ ["."; "/"]%char →
  PyStr.contains c (filename_and_ext filename).1 = false
  ∧ PyStr.contains c (filename_and_ext filename).2 = false.
Proof.
  intros Hc. unfold filename_and_ext. cbn [fst snd].
  apply elem_of_cons in Hc as [->|Hc].
  - split; [apply hd_split_no_sep|apply last_split_no_sep].
  - apply list_elem_of_singleton in Hc as ->.
    pose proof (basename_clean filename) as Hb.
    rewrite <- (join_split "." (basename filename)) in Hb.
    apply contains_join in Hb.
    pose proof (split_not_nil "." (basename filename)) as Hn.
    split.
    + destruct (PyStr.split "." (basename filename)); [done|].
      by apply Forall_cons in Hb as [? _].
    + destruct (exists_last Hn) as (l & p & E). rewrite E in *.
      rewrite List.last_last. apply Forall_app in Hb as [_ Hb].
      by apply Forall_cons in Hb as [? _].
Qed.

Lemma basename_prefix (prefix name : string) :
  prefix = "" ∨ (∃ dir, prefix = dir +:+ "/") →
  PyStr.contains "/" name = false → basename (prefix +:+ name) = name.
Proof.
  intros [->|[dir ->]] Hname.
  - by apply basename_no_slash.
  - rewrite app_slash. by apply basename_app.
Qed.

Lemma filename_and_ext_base_ext (prefix base ext : string) :
  prefix = "" ∨ (∃ dir, prefix = dir +:+ "/") →
  PyStr.contains "/" base = false → PyStr.contains "." base = false →
  PyStr.contains "/" ext = false → PyStr.contains "." ext = false →
  filename_and_ext (prefix +:+ base +:+ "." +:+ ext) = (base, ext).
Proof.
  intros Hprefix Hb Hbd He Hed.
  rewrite (filename_and_ext_base _ (base +:+ String "." ext)).
  - by rewrite hd_split_app, last_split_app.
  - apply basename_prefix; [done|].
    by rewrite contains_app, Hb; simpl; rewrite He.
Qed.

(** X3. The two names [filename_and_ext] returns hold neither a dot
    nor a slash. For a path that ends in [base.ext] they are [base] and
    [ext]; a middle part as in [base.middle.ext] is dropped; for a base
    name without a dot both are the base name. *)
Theorem filename_and_ext_parts :
  (∀ filename c, c ∈ ["."; "/"]%char →
     PyStr.contains c (filename_and_ext filename).1 = false
     ∧ PyStr.contains c (filename_and_ext filename).2 = false)
  ∧ (∀ prefix base middle ext : string,
       prefix = "" ∨ (∃ dir, prefix = dir +:+ "/") →
       PyStr.contains "/" base = false → PyStr.contains "." base = false →
       PyStr.contains "/" middle = false →
       PyStr.contains "/" ext = false → PyStr.contains "." ext = false →
       filename_and_ext (prefix +:+ base +:+ "." +:+ ext) = (base, ext)
       ∧ filename_and_ext (prefix +:+ base +:+ "." +:+ middle +:+ "." +:+ ext)
         = (base, ext)
       ∧ filename_and_ext (prefix +:+ base) = (base, base)).
Proof.
  split; [apply filename_and_ext_clean|].
  intros prefix base middle ext Hprefix Hb Hbd Hm He Hed.
  split; [by apply filename_and_ext_base_ext|split].
  - rewrite (filename_and_ext_base _
               (base +:+ String "." (middle +:+ String "." ext))).
    + rewrite hd_split_app by done. f_equal.
      rewrite split_app, last_app_not_nil by apply split_not_nil.
      by apply last_split_app.
    + apply basename_prefix; [done|]. rewrite contains_app, Hb. simpl.
      by rewrite contains_app, Hm; simpl; rewrite He.
  - rewrite (filename_and_ext_base _ base) by (by apply basename_prefix).
    by rewrite split_no_sep.
Qed.

(** X4. [main] renames a file to [b_name.b_ext]; [filename_and_ext]
    of that name gives [b_name] and [b_ext] again, so [process_file] and
    [process_zip] name their outputs after the parts [main] saw. *)
Theorem filename_and_ext_stable (filename : string) :
  let '(b_name, b_ext) := filename_and_ext filename in
  filename_and_ext (PyStr.join "." [b_name; b_ext]) = (b_name, b_ext).
Proof.
  destruct (filename_and_ext_clean filename "."%char) as [H1 H2]; [left|].
  destruct (filename_and_ext_clean filename "/"%char) as [H3 H4]; [right; left|].
  destruct (filename_and_ext filename) as [b_name b_ext]; cbn [fst snd] in *.
  by apply (filename_and_ext_base_ext "" b_name b_ext); [left|..].
Qed.

(** ** Properties of the paths and of [process_file] *)

Lemma append_assoc (a b c : string) : (a +:+ b) +:+ c = a +:+ b +:+ c.
Proof. induction a as [|d a IH]; [done|]. by rewrite !append_cons, IH. Qed.

Lemma append_not_empty (a b : string) : b ≠ "" → a +:+ b ≠ "".
Proof. by destruct a. Qed.

Lemma endswith_app (c : ascii) (a b : string) :
  b ≠ "" → PyStr.endswith c (a +:+ b) = PyStr.endswith c b.
Proof.
  intros Hb. induction a as [|d a IH]; [done|].
  rewrite append_cons. cbn [PyStr.endswith]. rewrite IH.
  pose proof (append_not_empty a b Hb). by destruct (a +:+ b).
Qed.

(** A folder [os.path.join(title, leaf)] of the program, and a file in it. *)
Lemma folder_join (title leaf : string) :
  leaf ≠ "" → PyStr.startswith "/" leaf = false →
  PyStr.endswith "/" leaf = false →
  let folder := path_join [title; leaf] in
  folder ≠ "" ∧ PyStr.endswith "/" folder = false
  ∧ ∀ name, PyStr.startswith "/" name = false →
      path_join [folder; name] = folder +:+ "/" +:+ name.
Proof.
  intros Hne Hstart Hend folder.
  assert (Hfolder : folder ≠ "" ∧ PyStr.endswith "/" folder = false).
  { subst folder. cbn [path_join foldl]. rewrite Hstart.
    destruct (bool_decide (title = "") || PyStr.endswith "/" title).
    - split; [by apply append_not_empty|by rewrite endswith_app].
    - split; [apply append_not_empty; by destruct leaf|].
      rewrite endswith_app by (by destruct leaf).
      change ("/" +:+ leaf) with (String "/" leaf).
      cbn [PyStr.endswith]. by destruct leaf. }
  destruct Hfolder as [Hn He]. split; [done|]. split; [done|].
  intros name Hname. cbn [path_join foldl]. fold folder.
  rewrite Hname, He, bool_decide_eq_false_2 by done. done.
Qed.

Lemma rpartition_ext (x ext : string) :
  PyStr.contains "." ext = false →
  (PyStr.rpartition "." (x +:+ String "." ext)).2 = ext.
Proof.
  intros He. unfold PyStr.rpartition.
  rewrite split_app, (split_no_sep "." ext) by done.
  pose proof (split_not_nil "." x).
  destruct (PyStr.split "." x) as [|p ps]; [done|].
  destruct ps as [|q ps]; [done|].
  cbn [app snd]. change (p :: q :: ps ++ [ext]) with ((p :: q :: ps) ++ [ext]).
  by rewrite List.last_last.
Qed.

Lemma startswith_no_slash (base rest : string) :
  PyStr.contains "/" base = false →
  PyStr.startswith "/" (base +:+ String "." rest) = false.
Proof.
  destruct base as [|c base]; [done|]. cbn. by intros [? _]%orb_false_iff.
Qed.

Lemma download_path_of_parts (title b_name b_ext : string) :
  PyStr.contains "/" b_name = false → PyStr.contains "." b_ext = false →
  let f_name := PyStr.join "." [b_name; b_ext] in
  let path := path_join [path_join [title; "download"]; f_name] in
  path = path_join [title; "download"] +:+ "/" +:+ f_name
  ∧ (PyStr.rpartition "." path).2 = b_ext.
Proof.
  intros Hb He f_name path. subst path f_name.
  destruct (folder_join title "download") as (_ & _ & Hjoin); [done..|].
  rewrite Hjoin by (by apply startswith_no_slash). split; [done|].
  change (PyStr.join "." [b_name; b_ext]) with (b_name +:+ String "." b_ext).
  rewrite <- !append_assoc. by apply rpartition_ext.
Qed.

(** X5. The file [main] saves as [b_name.b_ext] lies in the download
    folder of the title, and the extension [read_file] reads off its path,
    the text after the last dot, is [b_ext], the extension [main] tests,
    whatever dots the title holds. *)
Theorem download_path_extension (title filename : string) :
  let '(b_name, b_ext) := filename_and_ext filename in
  let f_name := PyStr.join "." [b_name; b_ext] in
  let path := path_join [path_join [title; "download"]; f_name] in
  path = path_join [title; "download"] +:+ "/" +:+ f_name
  ∧ (PyStr.rpartition "." path).2 = b_ext.
Proof.
  destruct (filename_and_ext_clean filename "."%char) as [_ H2]; [left|].
  destruct (filename_and_ext_clean filename "/"%char) as [H3 _]; [right; left|].
  destruct (filename_and_ext filename) as [b_name b_ext]; cbn [fst snd] in *.
  by apply download_path_of_parts.
Qed.

(** X6. [read_file] raises only for the extensions xlsx, xls and csv,
    and returns no table for an extension that is none of the six it
    knows, without calling a reader. *)
Theorem read_file_raises_only_tabular (filename : string) :
  let file_type := (PyStr.rpartition "." filename).2 in
  (∀ e, read_file filename = Raise e → file_type ∈ ["xlsx"; "xls"; "csv"])
  ∧ (file_type ∉ ["xlsx"; "xls"; "csv"; "xml"; "json"; "rdf"] →
     read_file filename = Ok None).
Proof.
  intros file_type. split.
  - intros e He.
    destruct (decide (file_type ∈ ["xlsx"; "xls"; "csv"])) as [|Hni]; [done|].
    destruct (read_file_guarded filename Hni) as [r Hr]. congruence.
  - intros Hni. unfold read_file. fold file_type.
    repeat (rewrite decide_False by (intros ?; apply Hni; sets_solver)).
    done.
Qed.


(** ** Properties of [process_zip] *)




(** The body of the loop of [process_zip]. *)
Local Abbreviation zip_entry title dwn_dest z_name :=
  (λ f_name : string,
     let '(b_name, b_ext) := filename_and_ext f_name in
     if decide (b_ext ∈ ALLOWED_EXTS) then
       then_ ([Unzip f_name (path_join [dwn_dest; z_name])], Ok ())
             (process_file title (path_join [dwn_dest; z_name; f_name]))
     else ([], Ok ())).





Lemma length_append (a b : string) :
  String.length (a +:+ b) = String.length a + String.length b.
Proof. induction a as [|c a IH]; [done|]. rewrite append_cons. cbn. by rewrite IH. Qed.

Lemma startswith_app (c : ascii) (a b : string) :
  a ≠ "" → PyStr.startswith c (a +:+ b) = PyStr.startswith c a.
Proof. by destruct a. Qed.

Lemma endswith_contains (c : ascii) (s : string) :
  PyStr.contains c s = false → PyStr.endswith c s = false.
Proof.
  induction s as [|d s IH]; [done|]. cbn.
  intros [Hd Hs]%orb_false_iff. destruct s; [done|by apply IH].
Qed.

Lemma startswith_contains (c : ascii) (s : string) :
  PyStr.contains c s = false → PyStr.startswith c s = false.
Proof. destruct s; [done|]. cbn. by intros [? _]%orb_false_iff. Qed.

Lemma download_folder_start (title : string) :
  PyStr.startswith "/" title = false →
  PyStr.startswith "/" (path_join [title; "download"]) = false.
Proof.
  intros Ht. cbn [path_join foldl].
  change (PyStr.startswith "/" "download") with false. cbn match.
  destruct title as [|c title]; [done|].
  by destruct (bool_decide _ || _); rewrite startswith_app.
Qed.

(** X10. An entry of a zip archive is extracted to the folder of the
    archive, [download/z_name/f_name] under the title, but [process_file]
    joins the download folder once more to the path [process_zip] hands
    it: it asks the reader for [download/.../download/z_name/f_name], a
    path that is never the path of the extracted entry. *)
Theorem zip_entry_read_elsewhere (title z_name f_name : string) :
  PyStr.startswith "/" title = false →
  z_name ≠ "" → PyStr.contains "/" z_name = false →
  PyStr.startswith "/" f_name = false →
  let dwn_dest := path_join [title; "download"] in
  let extracted := path_join [path_join [dwn_dest; z_name]; f_name] in
  let asked := dwn_dest +:+ "/" +:+ dwn_dest +:+ "/" +:+ z_name +:+ "/" +:+ f_name in
  extracted = dwn_dest +:+ "/" +:+ z_name +:+ "/" +:+ f_name
  ∧ asked ≠ extracted
  ∧ (read_file asked = Ok None →
     process_file title (path_join [dwn_dest; z_name; f_name])
     = (log_unssuported title f_name, Ok ()))
  ∧ (∀ e, read_file asked = Raise e →
       process_file title (path_join [dwn_dest; z_name; f_name]) = ([], Raise e)).
Proof.
  intros Ht Hz Hzs Hf dwn_dest extracted asked.
  destruct (folder_join title "download") as (Hd & Hde & Hjoin); [done..|].
  fold dwn_dest in Hd, Hde, Hjoin.
  assert (Hds : PyStr.startswith "/" dwn_dest = false)
    by (by apply download_folder_start).
  assert (Hfolder : path_join [dwn_dest; z_name] = dwn_dest +:+ String "/" z_name)
    by (apply Hjoin; by apply startswith_contains).
  assert (Hext : extracted = dwn_dest +:+ "/" +:+ z_name +:+ "/" +:+ f_name).
  { subst extracted. rewrite Hfolder. cbn [path_join foldl]. rewrite Hf.
    rewrite bool_decide_eq_false_2 by (by apply append_not_empty).
    rewrite endswith_app by done.
    change (PyStr.endswith "/" (String "/" z_name))
      with (match z_name with
            | EmptyString => Ascii.eqb "/" "/"
            | _ => PyStr.endswith "/" z_name
            end).
    destruct z_name as [|c z]; [done|].
    rewrite (endswith_contains _ _ Hzs). cbn [orb]. by rewrite !append_assoc. }
  assert (Hasked : path_join [dwn_dest; path_join [dwn_dest; z_name; f_name]]
                   = asked).
  { change (path_join [dwn_dest; z_name; f_name]) with extracted.
    rewrite Hjoin; [by rewrite Hext|].
    rewrite Hext, startswith_app; done. }
  split; [done|]. split.
  - intros E. apply (f_equal String.length) in E. subst asked.
    rewrite Hext in E. rewrite (length_append dwn_dest) in E.
    change ("/" +:+ dwn_dest +:+ "/" +:+ z_name +:+ "/" +:+ f_name)
      with (String "/" (dwn_dest +:+ "/" +:+ z_name +:+ "/" +:+ f_name)) in E.
    cbn [String.length] in E. lia.
  - unfold process_file.
    destruct (filename_and_ext _) as [b_name b_ext].
    fold dwn_dest. rewrite Hasked.
    split; [by intros ->|by intros e ->].
Qed.

(** ** Properties of the XML reader *)

(** The step of the loop of [dataframe_from_xml] for one record. *)
Local Abbreviation xml_step :=
  (λ (acc : PyResult DataFrame) (node : Element),
     dataframe ← acc;
     let row := (λ elem, text_cell (text elem)) <$> getchildren node in
     let df_cols := tag <$> getchildren node in
     frame_append dataframe (zip df_cols row)).


(** X11. The XML reader returns no table when the document cannot be
    parsed or its root has no child, and the empty table when the first
    child of the root has no record. It reads the records of the first
    child of the root only: the other children of the root do not count. *)
Theorem xml_reader_first_group :
  (∀ filename e,
     et_parse filename = Raise e → dataframe_from_xml filename = Ok None)
  ∧ (∀ filename t x,
       et_parse filename = Ok (Elem t x []) →
       dataframe_from_xml filename = Ok None)
  ∧ (∀ filename t x t1 x1 others,
       et_parse filename = Ok (Elem t x (Elem t1 x1 [] :: others)) →
       dataframe_from_xml filename = Ok (Some (mkDataFrame 0 [])))
  ∧ (∀ filename1 filename2 t1 x1 t2 x2 group others1 others2,
       et_parse filename1 = Ok (Elem t1 x1 (group :: others1)) →
       et_parse filename2 = Ok (Elem t2 x2 (group :: others2)) →
       dataframe_from_xml filename1 = dataframe_from_xml filename2).
Proof.
  unfold dataframe_from_xml. repeat split.
  - by intros filename e ->.
  - by intros filename t x ->.
  - by intros filename t x t1 x1 others ->.
  - by intros filename1 filename2 t1 x1 t2 x2 group others1 others2 -> ->.
Qed.


(** ** More properties of the type inference *)

Local Abbreviation blank s :=
  (Forall (λ c, PyStr.is_space c = true) (String.list_ascii_of_string s)).

Lemma lstrip_blank (ws s : string) :
  blank ws → PyStr.lstrip (ws +:+ s) = PyStr.lstrip s.
Proof.
  induction ws as [|c ws IH]; [done|]. cbn [String.list_ascii_of_string].
  intros [Hc Hws]%Forall_cons. rewrite append_cons. cbn [PyStr.lstrip].
  rewrite Hc. by apply IH.
Qed.

Lemma lstrip_all_blank (ws : string) : blank ws → PyStr.lstrip ws = "".
Proof.
  induction ws as [|c ws IH]; [done|]. cbn [String.list_ascii_of_string].
  intros [Hc Hws]%Forall_cons. cbn [PyStr.lstrip]. rewrite Hc. by apply IH.
Qed.

Lemma rstrip_blank (ws : string) : blank ws → PyStr.rstrip ws = "".
Proof.
  induction ws as [|c ws IH]; [done|]. cbn [String.list_ascii_of_string].
  intros [Hc Hws]%Forall_cons. cbn [PyStr.rstrip]. by rewrite IH, Hc.
Qed.

Lemma rstrip_app_blank (s ws : string) :
  blank ws → PyStr.rstrip (s +:+ ws) = PyStr.rstrip s.
Proof.
  intros Hws. induction s as [|c s IH].
  - by apply rstrip_blank.
  - rewrite append_cons. cbn [PyStr.rstrip]. by rewrite IH.
Qed.

Lemma lstrip_app (s ws : string) :
  PyStr.lstrip (s +:+ ws)
  = match PyStr.lstrip s with
    | EmptyString => PyStr.lstrip ws
    | String _ _ => PyStr.lstrip s +:+ ws
    end.
Proof.
  induction s as [|c s IH]; [done|].
  rewrite append_cons. cbn [PyStr.lstrip].
  destruct (PyStr.is_space c); [exact IH|done].
Qed.

Lemma lstrip_clean (s : string) :
  match PyStr.lstrip s with
  | EmptyString => True
  | String c _ => PyStr.is_space c = false
  end.
Proof.
  induction s as [|c s IH]; [done|]. cbn [PyStr.lstrip].
  by destruct (PyStr.is_space c) eqn:E.
Qed.

Lemma rstrip_idempotent (s : string) :
  PyStr.rstrip (PyStr.rstrip s) = PyStr.rstrip s.
Proof.
  induction s as [|c s IH]; [done|]. cbn [PyStr.rstrip].
  destruct (PyStr.rstrip s) as [|d r] eqn:E.
  - destruct (PyStr.is_space c) eqn:Ec; [done|]. cbn. by rewrite Ec.
  - change (PyStr.rstrip (String c (String d r)))
      with (match PyStr.rstrip (String d r) with
            | EmptyString =>
                if PyStr.is_space c then EmptyString else String c EmptyString
            | r0 => String c r0
            end).
    by rewrite IH.
Qed.

Lemma lstrip_rstrip (s : string) :
  match s with
  | EmptyString => True
  | String c _ => PyStr.is_space c = false
  end →
  PyStr.lstrip (PyStr.rstrip s) = PyStr.rstrip s.
Proof.
  destruct s as [|c s]; [done|]. intros Hc. cbn [PyStr.rstrip].
  destruct (PyStr.rstrip s); [rewrite Hc|]; cbn [PyStr.lstrip]; by rewrite Hc.
Qed.

Lemma strip_idempotent (s : string) :
  PyStr.strip (PyStr.strip s) = PyStr.strip s.
Proof.
  unfold PyStr.strip.
  rewrite (lstrip_rstrip (PyStr.lstrip s)) by apply lstrip_clean.
  apply rstrip_idempotent.
Qed.

Lemma strip_padding (before s after : string) :
  blank before → blank after →
  PyStr.strip (before +:+ s +:+ after) = PyStr.strip s.
Proof.
  intros Hb Ha. unfold PyStr.strip. rewrite lstrip_blank, lstrip_app by done.
  destruct (PyStr.lstrip s) as [|c r] eqn:E.
  - by rewrite lstrip_all_blank.
  - by rewrite rstrip_app_blank.
Qed.

(** X13. Blanks around the text of a value do not change its guess:
    a value padded with whitespace on either side, and the value cut down
    to its trimmed text, are guessed like the value itself. *)
Theorem guess_ignores_padding (value : Cell) (before after : string) :
  blank before → blank after →
  guess_str_type (CStr (before +:+ py_str value +:+ after))
  = guess_str_type value
  ∧ guess_str_type (CStr (PyStr.strip (py_str value))) = guess_str_type value.
Proof.
  intros Hb Ha. unfold guess_str_type. cbn [py_str].
  by rewrite strip_padding, strip_idempotent.
Qed.

(** The chooser does not look at the missing guesses. *)
Lemma choose_type_priority_ext_some (l1 l2 : list (option string)) :
  (∀ s, Some s ∈ l1 ↔ Some s ∈ l2) →
  choose_type_priority l1 = choose_type_priority l2.
Proof.
  intros E. unfold choose_type_priority.
  pose proof (E "str"). pose proof (E "float").
  pose proof (E "int"). pose proof (E "date").
  repeat case_decide; prop_solver.
Qed.

Lemma guess_None (value : Cell) :
  guess_str_type value = None ↔ PyStr.strip (py_str value) = "nan".
Proof.
  unfold guess_str_type. destruct (String.eqb_spec (PyStr.strip (py_str value)) "nan") as [E|E].
  - done.
  - split; [|done]. destruct (date_shaped _ && dateparse _); [done|].
    by destruct (literal_eval _).
Qed.

Lemma identify_entry_ext (df1 df2 : DataFrame) (column : string)
    (values1 values2 : list Cell) :
  NoDup (columns df1) → NoDup (columns df2) →
  (column, values1) ∈ series df1 → (column, values2) ∈ series df2 →
  (∀ s, Some s ∈ guess_str_type <$> take 100 values1
        ↔ Some s ∈ guess_str_type <$> take 100 values2) →
  identify_colummns_types df1 !! column = identify_colummns_types df2 !! column.
Proof.
  intros ND1 ND2 H1 H2 E.
  rewrite (identify_lookup_series _ _ _ ND1 H1), (identify_lookup_series _ _ _ ND2 H2).
  f_equal. by apply choose_type_priority_ext_some.
Qed.

(** X14. The entry of a column depends only on which type names its
    sampled values guess: two tables whose columns of the same name have
    the same set of guesses in their first 100 rows, missing values left
    aside, give the column the same entry. So the missing values of a
    column of at most 100 rows can be taken out without changing the
    entry. *)
Theorem entry_depends_on_guess_set (df1 df2 : DataFrame) (column : string)
    (values1 values2 : list Cell) :
  NoDup (columns df1) → NoDup (columns df2) →
  (column, values1) ∈ series df1 → (column, values2) ∈ series df2 →
  ((∀ s, Some s ∈ guess_str_type <$> take 100 values1
         ↔ Some s ∈ guess_str_type <$> take 100 values2) →
   identify_colummns_types df1 !! column = identify_colummns_types df2 !! column)
  ∧ (length values1 ≤ 100 →
     values2 = filter (λ v, PyStr.strip (py_str v) ≠ "nan") values1 →
     identify_colummns_types df1 !! column = identify_colummns_types df2 !! column).
Proof.
  intros ND1 ND2 H1 H2. split; [by apply identify_entry_ext|].
  intros Hlen ->. apply (identify_entry_ext _ _ _ _ _ ND1 ND2 H1 H2).
  pose proof (length_filter (λ v, PyStr.strip (py_str v) ≠ "nan") values1).
  rewrite !take_ge by lia. intros s.
  rewrite !list_elem_of_fmap. split.
  - intros (v & Hs & Hv). exists v. split; [done|].
    apply list_elem_of_filter. split; [|done].
    intros Hnan%guess_None. congruence.
  - intros (v & Hs & Hv%list_elem_of_filter). exists v. prop_solver.
Qed.

(** X15. The order of the rows within the sample does not count:
    two tables whose columns of the same name hold, in their first 100
    rows, the same values in another order give the column the same
    entry. *)
Theorem entry_ignores_row_order (df1 df2 : DataFrame) (column : string)
    (values1 values2 : list Cell) :
  NoDup (columns df1) → NoDup (columns df2) →
  (column, values1) ∈ series df1 → (column, values2) ∈ series df2 →
  take 100 values1 ≡ₚ take 100 values2 →
  identify_colummns_types df1 !! column = identify_colummns_types df2 !! column.
Proof.
  intros ND1 ND2 H1 H2 Hperm.
  apply (identify_entry_ext _ _ _ _ _ ND1 ND2 H1 H2).
  intros s. by rewrite Hperm.
Qed.

(** ** Properties of the batch *)

Lemma and_then_assoc (a b c : list Step * PyResult ()) :
  and_then (and_then a b) c = and_then a (and_then b c).
Proof.
  destruct a as [ea [[]|e]], b as [eb [[]|e']]; cbn; try done.
  by rewrite app_assoc.
Qed.

Lemma for_files_app {A} (body : A → list Step * PyResult ()) (l1 l2 : list A) :
  for_files body (l1 ++ l2) = and_then (for_files body l1) (for_files body l2).
Proof.
  induction l1 as [|x l1 IH]; cbn [app for_files].
  - by destruct (for_files body l2) as [? []].
  - by rewrite IH, and_then_assoc.
Qed.



(** What [main] does with one file, by the parts of its cleaned name. *)
Lemma main_file_parts (title : string) (file_info : string * string)
    (b_name b_ext : string) :
  filename_and_ext (sanity_name file_info.1) = (b_name, b_ext) →
  let f_name := PyStr.join "." [b_name; b_ext] in
  filename_and_ext f_name = (b_name, b_ext)
  ∧ path_join [path_join [title; "download"]; f_name]
    = path_join [title; "download"] +:+ "/" +:+ f_name
  ∧ (PyStr.rpartition "." (path_join [path_join [title; "download"]; f_name])).2
    = b_ext.
Proof.
  intros E f_name.
  destruct (filename_and_ext_clean (sanity_name file_info.1) "."%char)
    as [H1 H2]; [left|].
  destruct (filename_and_ext_clean (sanity_name file_info.1) "/"%char)
    as [H3 H4]; [right; left|].
  rewrite E in *. cbn [fst snd] in *. split.
  - by apply (filename_and_ext_base_ext "" b_name b_ext); [left|..].
  - by apply download_path_of_parts.
Qed.



Lemma omap_saved_core (events : list Event) :
  omap saved_path (Core <$> events) = [].
Proof. induction events as [|e events IH]; [done|]. exact IH. Qed.

(** [main] at a file that is saved and whose reading raises, or at an
    archive that is saved and cannot be opened. *)
Lemma main_file_raises (title : string) (file_info : string * string)
    (response : Response) (e : Exn) :
  let parts := filename_and_ext (sanity_name file_info.1) in
  let f_name := PyStr.join "." [parts.1; parts.2] in
  let path := path_join [title; "download"] +:+ "/" +:+ f_name in
  requests_get file_info.2 = Ok response →
  occurs_in "text/html" (default "text/html" (content_type response)) = false →
  (parts.2 ≠ "zip" ∧ read_file path = Raise e)
  ∨ (parts.2 = "zip" ∧ zip_namelist path = Raise e) →
  ∃ steps,
    main_file title (path_join [title; "download"]) file_info = (steps, Raise e)
    ∧ omap saved_path steps = [path].
Proof.
  intros parts f_name path Hget Hhtml Hcase.
  subst path f_name parts. unfold main_file, download_file. rewrite Hget, Hhtml.
  destruct (filename_and_ext (sanity_name file_info.1)) as [b_name b_ext] eqn:E.
  cbn [fst snd] in *.
  destruct (main_file_parts title file_info b_name b_ext E) as (Hparts & Hpath & _).
  cbv beta iota zeta in *.
  destruct Hcase as [[Hzip Hread]|[Hzip Hopen]].
  - rewrite decide_False by done. unfold process_file.
    rewrite Hparts. cbv beta iota zeta.
    rewrite Hpath, Hread. cbn [and_then core fst snd app fmap list_fmap].
    eexists. split; [reflexivity|]. done.
  - rewrite decide_True by done. unfold process_zip.
    rewrite Hpath, Hopen. cbn [and_then core fst snd app fmap list_fmap].
    eexists. split; [reflexivity|]. done.
Qed.

(** X17. When the reading of a downloaded file raises, as
    [pandas.read_csv] and [pandas.read_excel] can, or a downloaded zip
    archive cannot be opened, [main] raises the same exception at once:
    the file is the last one saved, and the files listed after it are not
    downloaded. *)
Theorem main_stops_at_failure (url : string) (filename : option string)
    (title name file_url : string) (pre post : list (string * string))
    (response : Response) (e : Exn) :
  let folder := path_join [sanity_name title; "download"] in
  let parts := filename_and_ext (sanity_name name) in
  let path := folder +:+ "/" +:+ PyStr.join "." [parts.1; parts.2] in
  retreive_download_url url filename
  = Ok (title, pre ++ (name, file_url) :: post) →
  (for_files (main_file (sanity_name title) folder) pre).2 = Ok () →
  requests_get file_url = Ok response →
  occurs_in "text/html" (default "text/html" (content_type response)) = false →
  (parts.2 ≠ "zip" ∧ read_file path = Raise e)
  ∨ (parts.2 = "zip" ∧ zip_namelist path = Raise e) →
  (main url filename).2 = Raise e
  ∧ omap saved_path (main url filename).1
    = omap saved_path (for_files (main_file (sanity_name title) folder) pre).1
      ++ [path].
Proof.
  intros folder parts path Hurls Hpre Hget Hhtml Hcase.
  destruct (main_file_raises (sanity_name title) (name, file_url) response e
              Hget Hhtml Hcase) as (steps & Hfile & Hsaved).
  unfold main. rewrite Hurls. fold folder in Hfile |- *.
  rewrite for_files_app. cbn [for_files]. rewrite Hfile.
  destruct (for_files _ pre) as [steps_pre r]; cbn [snd fst] in *; subst r.
  cbn [and_then fst snd]. split; [done|].
  by rewrite !omap_app, omap_saved_core, Hsaved.
Qed.

(** ** More properties of the JSON reader *)

Lemma py_getitem_cases (v : Json) (key : string) :
  (∃ x, py_getitem v key = Ok x ∧ child v key = Some x)
  ∨ (∃ e, py_getitem v key = Raise e ∧ child v key = None).
Proof.
  destruct (child v key) as [x|] eqn:E.
  - left. exists x. by rewrite py_getitem_child.
  - right. destruct (py_getitem_child_None v key E) as [e He]. by exists e.
Qed.

(** The result of the JSON reader by the values at its two key paths. *)
Lemma dataframe_from_json_paths (filename text : string) (doc : Json) :
  open_read filename = Ok text → json_decode text = Ok doc →
  dataframe_from_json filename
  = match key_path ["data"] doc, key_path ["meta"; "view"; "columns"] doc with
    | Some rows, Some columns =>
        try_except
          (items ← py_iter columns;
           column_names ← mapM (λ c, py_getitem c "name") items;
           dataframe ← pandas_DataFrame rows column_names;
           mret (Some dataframe))
          (λ e, mret None)
    | _, _ => Ok None
    end.
Proof.
  intros Hopen Hdec. unfold dataframe_from_json. rewrite Hopen.
  cbn [mbind PyResult_bind]. rewrite Hdec. cbn [mbind PyResult_bind].
  rewrite key_path_single, key_path_cons.
  destruct (py_getitem_cases doc "data") as [(rows & -> & ->)|(e & -> & ->)];
    [|done].
  destruct (py_getitem_cases doc "meta") as [(meta & -> & ->)|(e & -> & ->)];
    [|done].
  cbn [mbind PyResult_bind option_bind]. rewrite key_path_cons.
  destruct (py_getitem_cases meta "view") as [(view & -> & ->)|(e & -> & ->)];
    [|done].
  cbn [mbind PyResult_bind option_bind]. rewrite key_path_single.
  by destruct (py_getitem_cases view "columns")
    as [(columns & -> & ->)|(e & -> & ->)].
Qed.

(** X18. The JSON reader looks at [data] and at [meta.view.columns]
    and at nothing else of the document: two documents with the same
    values at these two key paths give the same result, whatever else
    they hold. *)
Theorem json_reader_reads_two_paths (filename1 filename2 text1 text2 : string)
    (doc1 doc2 : Json) :
  open_read filename1 = Ok text1 → json_decode text1 = Ok doc1 →
  open_read filename2 = Ok text2 → json_decode text2 = Ok doc2 →
  key_path ["data"] doc1 = key_path ["data"] doc2 →
  key_path ["meta"; "view"; "columns"] doc1
  = key_path ["meta"; "view"; "columns"] doc2 →
  dataframe_from_json filename1 = dataframe_from_json filename2.
Proof.
  intros Ho1 Hd1 Ho2 Hd2 Hdata Hcols.
  rewrite (dataframe_from_json_paths _ _ _ Ho1 Hd1),
    (dataframe_from_json_paths _ _ _ Ho2 Hd2).
  by rewrite Hdata, Hcols.
Qed.
End Program.

(** ** The theorems at concrete inputs *)

Lemma priority_string_float_integer_date_witness :
  let values := [CStr "1"; CStr "2.5"; CStr "x"] in
  let df := mkDataFrame 3 [("a", [CStr "1"; CStr "2"; CStr "1"]); ("b", values)] in
  let guesses := guess_str_type Sample.dateparse Sample.literal_eval
                   <$> take 100 values in
  (NoDup (columns df) ∧ ("b", values) ∈ series df
   ∧ Sample.literal_eval "1" = Some TInt ∧ Sample.literal_eval "2" = Some TInt
   ∧ Sample.literal_eval "2.5" = Some TFloat ∧ Sample.literal_eval "x" = None)
  ∧ Some "str" ∈ guesses
  ∧ identify_colummns_types Sample.dateparse Sample.literal_eval df !! "b"
    = Some "VARCHAR(100)"
  ∧ identify_colummns_types Sample.dateparse Sample.literal_eval
      (one_column "c" [CStr "1"; CStr "2"]) !! "c" = Some "INT".
Proof.
  intros values df guesses.
  assert (ND : NoDup (columns df)).
  { apply NoDup_cons. split; [|apply NoDup_singleton].
    intros [=]%list_elem_of_singleton. }
  assert (Hin : ("b", values) ∈ series df) by (right; left).
  assert (Hstr : Some "str" ∈ guesses) by (right; right; left).
  destruct (priority_string_float_integer_date Sample.dateparse Sample.literal_eval)
    as (Hrule & _ & Hexamples).
  destruct (Hrule df "b" values ND Hin) as (entry & Hentry & Hs & _).
  destruct Hexamples as (_ & Hint & _); try reflexivity.
  split; [by repeat split|].
  split; [exact Hstr|].
  split; [|exact Hint].
  rewrite Hentry. f_equal. by apply Hs.
Defined.

Lemma guess_date_window_witness :
  let short := CStr "1/1/20" in
  let _str := PyStr.strip (py_str short) in
  (PyStr.len _str ≤ 7 ∨ 11 ≤ PyStr.len _str)
  ∧ Sample.dateparse _str = true
  ∧ guess_str_type Sample.dateparse Sample.literal_eval short = Some "str"
  ∧ guess_str_type Sample.dateparse Sample.literal_eval (CStr " 2020-01-01 ")
    = Some "date".
Proof.
  intros short _str.
  assert (Hlen : PyStr.len _str ≤ 7 ∨ 11 ≤ PyStr.len _str)
    by (left; subst _str; vm_compute; lia).
  destruct (guess_date_window Sample.dateparse Sample.literal_eval short)
    as [_ Hshort].
  destruct (Hshort Hlen) as [_ Hguess].
  destruct (guess_date_window Sample.dateparse Sample.literal_eval
              (CStr " 2020-01-01 ")) as [Hdate _].
  split; [exact Hlen|]. split; [reflexivity|].
  split; [rewrite Hguess; reflexivity|].
  apply Hdate. vm_compute. repeat split; try lia; by left.
Defined.

Lemma tabular_parse_failure_propagates_witness :
  let path := path_join [path_join ["Crime"; "download"]; "data.csv"] in
  let read_csv : string → PyResult DataFrame := Sample.fails "EmptyDataError" in
  ((PyStr.rpartition "." path).2 = "csv"
   ∧ read_csv path = Raise (LibraryError "EmptyDataError"))
  ∧ process_file Sample.dateparse Sample.literal_eval
      (Sample.fails "open") (Sample.fails "json") Sample.dtype_coerce
      (Sample.fails2 "DataFrame") (Sample.fails "xml") (Sample.fails2 "append")
      (Sample.fails "rdf") (Sample.fails "graph") (Sample.fails "excel")
      read_csv Sample.get_schema
      "Crime" "data.csv"
    = ([], Raise (LibraryError "EmptyDataError")).
Proof.
  intros path read_csv.
  assert (H : (PyStr.rpartition "." path).2 = "csv"
              ∧ read_csv path = Raise (LibraryError "EmptyDataError"))
    by (split; reflexivity).
  split; [exact H|].
  apply (tabular_parse_failure_propagates Sample.dateparse Sample.literal_eval
           (Sample.fails "open") (Sample.fails "json") Sample.dtype_coerce
           (Sample.fails2 "DataFrame") (Sample.fails "xml") (Sample.fails2 "append")
           (Sample.fails "rdf") (Sample.fails "graph") (Sample.fails "excel")
      read_csv Sample.get_schema
           "Crime" "data.csv" (LibraryError "EmptyDataError")).
  left. exact H.
Defined.

Lemma zip_csv_entries_skipped_witness :
  let namelist : string → PyResult (list string) :=
    λ _, Ok ["data.csv"; "more/rows.csv"] in
  Forall (λ f_name, (filename_and_ext f_name).2 = "csv")
         ["data.csv"; "more/rows.csv"]
  ∧ process_zip Sample.dateparse Sample.literal_eval
      (Sample.fails "open") (Sample.fails "json") Sample.dtype_coerce
      (Sample.fails2 "DataFrame") (Sample.fails "xml") (Sample.fails2 "append")
      (Sample.fails "rdf") (Sample.fails "graph") (Sample.fails "excel")
      (Sample.fails "csv")
      Sample.get_schema namelist (λ _, false) "Crime" "files.zip"
    = ([Mkdir "Crime/download/files"], Ok ()).
Proof.
  intros namelist.
  assert (Hall : Forall (λ f_name, (filename_and_ext f_name).2 = "csv")
                        ["data.csv"; "more/rows.csv"])
    by (repeat constructor).
  split; [exact Hall|].
  apply (zip_csv_entries_skipped Sample.dateparse Sample.literal_eval
           (Sample.fails "open") (Sample.fails "json") Sample.dtype_coerce
           (Sample.fails2 "DataFrame") (Sample.fails "xml") (Sample.fails2 "append")
           (Sample.fails "rdf") (Sample.fails "graph") (Sample.fails "excel")
      (Sample.fails "csv")
           Sample.get_schema namelist (λ _, false) "Crime" "files.zip"
           ["data.csv"; "more/rows.csv"]); [reflexivity|exact Hall].
Defined.

Lemma sample_is_first_100_rows_witness :
  let first := replicate 100 (CStr "1") in
  let df1 := one_column "n" (first ++ [CStr "x"]) in
  let df2 := one_column "n" (first ++ [CStr "2"; CStr "2.5"]) in
  (Forall2 (λ s1 s2, s1.1 = s2.1 ∧ take 100 s1.2 = take 100 s2.2)
           (series df1) (series df2)
   ∧ NoDup (columns df1) ∧ ("n", first ++ [CStr "x"]) ∈ series df1
   ∧ length first = 100
   ∧ Forall (λ v, guess_str_type Sample.dateparse Sample.literal_eval v
                  = Some "int") first)
  ∧ identify_colummns_types Sample.dateparse Sample.literal_eval df1
    = identify_colummns_types Sample.dateparse Sample.literal_eval df2
  ∧ identify_colummns_types Sample.dateparse Sample.literal_eval df1 !! "n"
    = Some "INT".
Proof.
  intros first df1 df2.
  assert (HF : Forall2 (λ s1 s2, s1.1 = s2.1 ∧ take 100 s1.2 = take 100 s2.2)
                       (series df1) (series df2)).
  { constructor; [|constructor]. split; reflexivity. }
  assert (ND : NoDup (columns df1)) by apply NoDup_singleton.
  assert (Hin : ("n", first ++ [CStr "x"]) ∈ series df1) by left.
  assert (Hlen : length first = 100) by reflexivity.
  assert (Hall : Forall (λ v, guess_str_type Sample.dateparse Sample.literal_eval v
                              = Some "int") first).
  { apply Forall_replicate. reflexivity. }
  destruct (sample_is_first_100_rows Sample.dateparse Sample.literal_eval)
    as [Hsame Hint].
  split; [by repeat split|]. split.
  - exact (Hsame df1 df2 HF).
  - exact (Hint df1 "n" first [CStr "x"] ND Hin Hlen Hall).
Defined.

Lemma missing_values_default_witness :
  let values := [NaN; CStr " nan"; NaN] in
  let df := one_column "empty" values in
  (PyStr.strip (py_str NaN) = "nan"
   ∧ NoDup (columns df) ∧ ("empty", values) ∈ series df
   ∧ Forall (λ v, PyStr.strip (py_str v) = "nan") (take 100 values))
  ∧ guess_str_type Sample.dateparse Sample.literal_eval NaN = None
  ∧ identify_colummns_types Sample.dateparse Sample.literal_eval df !! "empty"
    = Some "VARCHAR(100)".
Proof.
  intros values df.
  assert (Hnan : PyStr.strip (py_str NaN) = "nan") by reflexivity.
  assert (ND : NoDup (columns df)) by apply NoDup_singleton.
  assert (Hin : ("empty", values) ∈ series df) by left.
  assert (Hall : Forall (λ v, PyStr.strip (py_str v) = "nan") (take 100 values))
    by (repeat constructor).
  destruct (missing_values_default Sample.dateparse Sample.literal_eval)
    as [Hguess Hcolumn].
  split; [by repeat split|]. split.
  - exact (Hguess NaN Hnan).
  - exact (Hcolumn df "empty" values ND Hin Hall).
Defined.

Lemma inference_twice_same_mapping_witness :
  let df := mkDataFrame 2 [("a", [CStr "1"; CStr "2"]); ("b", [CStr "x"; NaN])] in
  let heap := [one_column "other" []; df] in
  heap !! 1 = Some df
  ∧ ∃ (types : gmap string string) (heap1 heap2 : list DataFrame),
      identify_colummns_types_call Sample.dateparse Sample.literal_eval 1 heap
      = Some (types, heap1)
      ∧ identify_colummns_types_call Sample.dateparse Sample.literal_eval 1 heap1
        = Some (types, heap2)
      ∧ heap1 !! 1 = Some df
      ∧ types = identify_colummns_types Sample.dateparse Sample.literal_eval df.
Proof.
  intros df heap.
  assert (Hdf : heap !! 1 = Some df) by reflexivity.
  split; [exact Hdf|].
  exact (inference_twice_same_mapping Sample.dateparse Sample.literal_eval
           heap 1 df Hdf).
Defined.

Lemma schema_keys_and_values_witness :
  let types := [Some "bool"; None; Some "list"] in
  (Forall (λ g, g ∉ [Some "str"; Some "float"; Some "int"; Some "date"]) types
   ∧ TBool ∉ [TStr; TFloat; TInt])
  ∧ choose_type_priority types = "VARCHAR(100)"
  ∧ choose_type_priority [Some (type_name TBool)] = "VARCHAR(100)".
Proof.
  intros types.
  assert (Hall : Forall (λ g, g ∉ [Some "str"; Some "float"; Some "int"; Some "date"])
                        types).
  { repeat constructor; intros Hin; repeat (apply elem_of_cons in Hin as [?|Hin]);
      try discriminate; by apply elem_of_nil in Hin. }
  assert (Hbool : TBool ∉ [TStr; TFloat; TInt]).
  { intros Hin; repeat (apply elem_of_cons in Hin as [?|Hin]);
      try discriminate; by apply elem_of_nil in Hin. }
  destruct (schema_keys_and_values Sample.dateparse Sample.literal_eval)
    as (_ & _ & Hdefault & Hliteral).
  split; [by split|]. split.
  - exact (Hdefault types Hall).
  - exact (Hliteral TBool Hbool).
Defined.

Lemma export_csv_layout_witness :
  let df := mkDataFrame 2 [("city", [CStr "Ames"; CStr "Boone"]);
                           ("zip", [CInt 50010; NaN])] in
  (1 < index_len df ∧ series df !! 1 = Some ("zip", [CInt 50010; NaN])
   ∧ [CInt 50010; NaN] !! 0 = Some (CInt 50010))
  ∧ ∃ records : list (list string),
      export_csv df "Crime/csv/towns" = [CsvFile "Crime/csv/towns.csv" "utf-8" records]
      ∧ records !! 0 = Some ["city"; "zip"]
      ∧ ∃ record, records !! 1 = Some record ∧ record !! 1 = Some "50010".
Proof.
  intros df.
  assert (Hi : 0 < index_len df) by (cbn; lia).
  assert (Hj : series df !! 1 = Some ("zip", [CInt 50010; NaN])) by reflexivity.
  assert (Hv : [CInt 50010; NaN] !! 0 = Some (CInt 50010)) by reflexivity.
  destruct (export_csv_layout df "Crime/csv/towns")
    as (records & Hevent & _ & Hheader & Hcell & _).
  split; [repeat split; try done; cbn; lia|].
  exists records. split; [exact Hevent|]. split; [exact Hheader|].
  exact (Hcell 0 1 "zip" [CInt 50010; NaN] (CInt 50010) Hi Hj Hv).
Defined.


(** ** Where the specification and the code part *)


Example json_null_data_table :
  dataframe_from_json (λ _, Ok "{...}") (λ _, Ok Sample.null_data_json)
    Sample.dtype_coerce (Sample.fails2 "DataFrame") "rows.json"
  = Ok (Some (mkDataFrame 0 [("city", []); ("zip", [])])).
Proof. reflexivity. Qed.

(** [process_zip] hands [process_file] a path that starts with the download
    folder, and [process_file] prefixes the download folder again. *)
Example zip_entry_read_path :
  let dwn_dest := path_join ["Crime"; "download"] in
  path_join [dwn_dest; path_join [dwn_dest; "files"; "rows.json"]]
  = "Crime/download/Crime/download/files/rows.json".
Proof. reflexivity. Qed.

Example filename_and_ext_examples :
  filename_and_ext "Crime/download/rows.2019.json" = ("rows", "json")
  ∧ filename_and_ext "README" = ("README", "README")
  ∧ filename_and_ext "folder/" = ("", "").
Proof. repeat split. Qed.

Example py_str_examples :
  py_str (CInt (-42)) = "-42" ∧ py_str (CInt 0) = "0" ∧ py_str NaN = "nan".
Proof. repeat split. Qed.

(** ** The further properties at concrete inputs *)

Lemma sanity_name_filters_witness :
  "/"%char ∈ to_replace
  ∧ PyStr.contains "/" (sanity_name "Crime/Theft: 2020?") = false
  ∧ sanity_name "Crime/Theft: 2020?" = "CrimeTheft 2020".
Proof.
  assert (Hc : "/"%char ∈ to_replace) by (right; left).
  destruct (sanity_name_filters "Crime/Theft: 2020?") as [_ Hclean].
  split; [exact Hc|]. split; [exact (Hclean _ Hc)|reflexivity].
Defined.

Lemma sanity_name_idempotent_witness :
  (∀ c, c ∈ to_replace → PyStr.contains c "towns 2020.csv" = false)
  ∧ sanity_name "towns 2020.csv" = "towns 2020.csv".
Proof.
  assert (Hclean : ∀ c, c ∈ to_replace →
                        PyStr.contains c "towns 2020.csv" = false).
  { intros c Hc. repeat (apply elem_of_cons in Hc as [->|Hc]); try reflexivity.
    by apply elem_of_nil in Hc. }
  destruct (sanity_name_idempotent "towns 2020.csv") as [_ Hkeep].
  split; [exact Hclean|exact (Hkeep Hclean)].
Defined.

Lemma filename_and_ext_parts_witness :
  ("Crime/download/" = "" ∨ ∃ dir, "Crime/download/" = dir +:+ "/")
  ∧ filename_and_ext "Crime/download/rows.2019.json" = ("rows", "json")
  ∧ filename_and_ext "Crime/download/rows" = ("rows", "rows").
Proof.
  assert (Hprefix : "Crime/download/" = ""
                    ∨ ∃ dir, "Crime/download/" = dir +:+ "/")
    by (right; by exists "Crime/download").
  destruct filename_and_ext_parts as [_ Hparts].
  destruct (Hparts "Crime/download/" "rows" "2019" "json" Hprefix
              eq_refl eq_refl eq_refl eq_refl eq_refl) as (_ & Hmiddle & Hnone).
  split; [exact Hprefix|]. split; [exact Hmiddle|exact Hnone].
Defined.

Lemma guess_ignores_padding_witness :
  Forall (λ c, PyStr.is_space c = true) (String.list_ascii_of_string "  ")
  ∧ Forall (λ c, PyStr.is_space c = true)
           (String.list_ascii_of_string (" " +:+ PyStr.tab))
  ∧ guess_str_type Sample.dateparse Sample.literal_eval
      (CStr ("  " +:+ "2.5" +:+ " " +:+ PyStr.tab))
    = guess_str_type Sample.dateparse Sample.literal_eval (CStr "2.5").
Proof.
  assert (Hb : Forall (λ c, PyStr.is_space c = true)
                      (String.list_ascii_of_string "  "))
    by (repeat constructor).
  assert (Ha : Forall (λ c, PyStr.is_space c = true)
                      (String.list_ascii_of_string (" " +:+ PyStr.tab)))
    by (repeat constructor).
  split; [exact Hb|]. split; [exact Ha|].
  exact (proj1 (guess_ignores_padding Sample.dateparse Sample.literal_eval
                  (CStr "2.5") "  " (" " +:+ PyStr.tab) Hb Ha)).
Defined.

Lemma entry_depends_on_guess_set_witness :
  let values1 := [CStr "1"; NaN; CStr "2"; NaN] in
  let values2 := [CStr "1"; CStr "2"] in
  let df1 := one_column "n" values1 in
  let df2 := one_column "n" values2 in
  (NoDup (columns df1) ∧ NoDup (columns df2)
   ∧ ("n", values1) ∈ series df1 ∧ ("n", values2) ∈ series df2
   ∧ length values1 ≤ 100
   ∧ values2 = filter (λ v, PyStr.strip (py_str v) ≠ "nan") values1)
  ∧ identify_colummns_types Sample.dateparse Sample.literal_eval df1 !! "n"
    = identify_colummns_types Sample.dateparse Sample.literal_eval df2 !! "n".
Proof.
  intros values1 values2 df1 df2.
  assert (ND1 : NoDup (columns df1)) by apply NoDup_singleton.
  assert (ND2 : NoDup (columns df2)) by apply NoDup_singleton.
  assert (H1 : ("n", values1) ∈ series df1) by left.
  assert (H2 : ("n", values2) ∈ series df2) by left.
  assert (Hlen : length values1 ≤ 100) by (cbn; lia).
  assert (Hfilter : values2
                    = filter (λ v, PyStr.strip (py_str v) ≠ "nan") values1)
    by reflexivity.
  split; [by repeat split|].
  exact (proj2 (entry_depends_on_guess_set Sample.dateparse Sample.literal_eval
                  df1 df2 "n" values1 values2 ND1 ND2 H1 H2) Hlen Hfilter).
Defined.

Lemma entry_ignores_row_order_witness :
  let values1 := [CStr "1"; CStr "x"] in
  let values2 := [CStr "x"; CStr "1"] in
  let df1 := one_column "n" values1 in
  let df2 := one_column "n" values2 in
  (NoDup (columns df1) ∧ NoDup (columns df2)
   ∧ ("n", values1) ∈ series df1 ∧ ("n", values2) ∈ series df2
   ∧ take 100 values1 ≡ₚ take 100 values2)
  ∧ identify_colummns_types Sample.dateparse Sample.literal_eval df1 !! "n"
    = identify_colummns_types Sample.dateparse Sample.literal_eval df2 !! "n".
Proof.
  intros values1 values2 df1 df2.
  assert (ND1 : NoDup (columns df1)) by apply NoDup_singleton.
  assert (ND2 : NoDup (columns df2)) by apply NoDup_singleton.
  assert (H1 : ("n", values1) ∈ series df1) by left.
  assert (H2 : ("n", values2) ∈ series df2) by left.
  assert (Hperm : take 100 values1 ≡ₚ take 100 values2) by apply perm_swap.
  split; [by repeat split|].
  exact (entry_ignores_row_order Sample.dateparse Sample.literal_eval
           df1 df2 "n" values1 values2 ND1 ND2 H1 H2 Hperm).
Defined.

Lemma xml_reader_first_group_witness :
  let parse : string → PyResult Element :=
    λ _, Ok (Elem "response" None [Elem "rows" None []; Elem "rows" None []]) in
  parse "rows.xml"
  = Ok (Elem "response" None [Elem "rows" None []; Elem "rows" None []])
  ∧ dataframe_from_xml parse (Sample.fails2 "append") "rows.xml"
    = Ok (Some (mkDataFrame 0 [])).
Proof.
  intros parse.
  destruct (xml_reader_first_group parse (Sample.fails2 "append"))
    as (_ & _ & Hempty & _).
  split; [reflexivity|].
  exact (Hempty "rows.xml" "response" None "rows" None
           [Elem "rows" None []] eq_refl).
Defined.


Lemma json_reader_reads_two_paths_witness :
  let open_ : string → PyResult string := λ filename, Ok filename in
  (key_path ["data"] Fixture.rows_json_extra = key_path ["data"] Sample.rows_json
   ∧ key_path ["meta"; "view"; "columns"] Fixture.rows_json_extra
     = key_path ["meta"; "view"; "columns"] Sample.rows_json)
  ∧ dataframe_from_json open_ Fixture.decode Sample.dtype_coerce
      (Sample.fails2 "DataFrame") "extra"
    = dataframe_from_json open_ Fixture.decode Sample.dtype_coerce
        (Sample.fails2 "DataFrame") "plain".
Proof.
  intros open_. split; [by split|].
  exact (json_reader_reads_two_paths open_ Fixture.decode Sample.dtype_coerce
           (Sample.fails2 "DataFrame") "extra" "plain" "extra" "plain"
           Fixture.rows_json_extra Sample.rows_json
           eq_refl eq_refl eq_refl eq_refl eq_refl eq_refl).
Defined.

(** The program with library functions that fail, but for the readers of
    excel and csv files, which are given. *)
Local Abbreviation with_readers f :=
  (f (Sample.fails "open") (Sample.fails "json") Sample.dtype_coerce
     (Sample.fails2 "DataFrame") (Sample.fails "xml") (Sample.fails2 "append")
     (Sample.fails "rdf") (Sample.fails "graph")).
Local Abbreviation with_libraries f :=
  (with_readers (f Sample.dateparse Sample.literal_eval)).


Lemma read_file_raises_only_tabular_witness :
  ((PyStr.rpartition "." "Crime/download/notes.txt").2
     ∉ ["xlsx"; "xls"; "csv"; "xml"; "json"; "rdf"])
  ∧ with_readers read_file (Sample.fails "excel") (Sample.fails "csv")
      "Crime/download/notes.txt" = Ok None.
Proof.
  assert (Hext : (PyStr.rpartition "." "Crime/download/notes.txt").2
                   ∉ ["xlsx"; "xls"; "csv"; "xml"; "json"; "rdf"]).
  { intros Hin. vm_compute in Hin.
    repeat (apply elem_of_cons in Hin as [Hin|Hin]; [discriminate Hin|]).
    by apply elem_of_nil in Hin. }
  split; [exact Hext|].
  exact (proj2 (with_readers read_file_raises_only_tabular
                  (Sample.fails "excel") (Sample.fails "csv")
                  "Crime/download/notes.txt") Hext).
Defined.




Lemma zip_entry_read_elsewhere_witness :
  let dwn_dest := path_join ["Crime"; "download"] in
  (PyStr.startswith "/" "Crime" = false ∧ "files" ≠ ""
   ∧ PyStr.contains "/" "files" = false
   ∧ PyStr.startswith "/" "rows.json" = false)
  ∧ path_join [path_join [dwn_dest; "files"]; "rows.json"]
    = "Crime/download/files/rows.json"
  ∧ "Crime/download/Crime/download/files/rows.json"
    ≠ path_join [path_join [dwn_dest; "files"]; "rows.json"].
Proof.
  intros dwn_dest.
  assert (Hz : "files" ≠ "") by done.
  destruct (with_libraries zip_entry_read_elsewhere (Sample.fails "excel")
              (Sample.fails "csv") Sample.get_schema
              "Crime" "files" "rows.json" eq_refl Hz eq_refl eq_refl)
    as (Hext & Hne & _).
  split; [by repeat split|]. split; [exact Hext|exact Hne].
Defined.


Lemma main_stops_at_failure_witness :
  let run := with_libraries main (Sample.fails "excel") (Sample.fails "csv")
               Sample.get_schema (Sample.fails "zip") (λ _, false)
               Fixture.answer Fixture.listing_csv "http://host" None in
  (Fixture.answer "http://host/towns"
   = Ok (mkResponse (Some "application/json") "{}")
   ∧ with_readers read_file (Sample.fails "excel") (Sample.fails "csv")
       "Crime 2020/download/towns.csv"
     = Raise (LibraryError "csv"))
  ∧ run.2 = Raise (LibraryError "csv")
  ∧ omap saved_path run.1
    = ["Crime 2020/download/rows.json"; "Crime 2020/download/towns.csv"].
Proof.
  intros run.
  assert (Hget : Fixture.answer "http://host/towns"
                 = Ok (mkResponse (Some "application/json") "{}"))
    by reflexivity.
  assert (Hread : with_readers read_file (Sample.fails "excel") (Sample.fails "csv")
                    "Crime 2020/download/towns.csv"
                  = Raise (LibraryError "csv")) by reflexivity.
  split; [by split|].
  refine (with_libraries main_stops_at_failure (Sample.fails "excel")
            (Sample.fails "csv") Sample.get_schema (Sample.fails "zip")
            (λ _, false) Fixture.answer Fixture.listing_csv "http://host" None
            "Crime: 2020" "towns.v2.csv" "http://host/towns"
            [("rows.json", "http://host/rows")]
            [("more.json", "http://host/more")]
            (mkResponse (Some "application/json") "{}") (LibraryError "csv")
            eq_refl eq_refl Hget eq_refl (or_introl (conj _ Hread))).
  discriminate.
Defined.
